(** * Hotel booking system: reservation, pricing and lifecycle

    A shallow embedding of [hotel_app/models.py], [hotel_app/forms.py],
    [hotel_app/views.py] and [hotel_app/admin.py].

    Conventions of the embedding:
    - a [datetime.date] is its proleptic ordinal (an integer, as returned by
      [date.toordinal()]), so [(a - b).days] is [a - b] on [Z];
    - a [DecimalField(max_digits=10, decimal_places=2)] amount is an integer
      number of hundredths, so [3500.00] is [350000]; the ten-digit limit
      of the column is [fits_decimal_10_2] and is stated where a property
      depends on reading such a value back;
    - a database table is the list of its rows in primary-key order, and a
      queryset is a list of rows;
    - the clock ([datetime.now().date()], [timezone.now().date()]) is an
      explicit [today] argument;
    - columns that no modelled operation reads (guest snapshot, notes,
      timestamps, images, amenities) are left out of the records. *)

From Stdlib Require Import ZArith List String Bool Lia QArith DecimalString.
From Stdlib Require Import Permutation Sorted.
Import ListNotations.
Open Scope string_scope.
Open Scope Z_scope.

Definition date := Z.

(** [str(n)] of an integer. *)
Definition str (n : Z) : string := NilZero.string_of_int (Z.to_int n).

(** An integer the database can take as a query parameter: the signed
    64-bit range.  A Python [int] outside it makes the query raise when it
    is run. *)
Definition fits_int64 (n : Z) : bool := (- 2 ^ 63 <=? n) && (n <? 2 ^ 63).

(** An amount in hundredths that a [DecimalField(max_digits=10,
    decimal_places=2)] column gives back when the row is read: at most ten
    digits.  A larger value can be written to the table, and reading the
    row then raises. *)
Definition fits_decimal_10_2 (hundredths : Z) : Prop :=
  - 10 ^ 10 < hundredths < 10 ^ 10.

(** ** models.py *)

(** [RoomType]: [base_price] in hundredths, [capacity] an integer. *)
Module RoomType.
Record t := mk
  { id : Z;
    name : string;
    base_price : Z;
    capacity : Z }.
End RoomType.

(** [Room] and its [STATUS_CHOICES]. *)
Module Room.
Inductive Status := Available | Occupied | Maintenance | Blocked.

Definition status_eqb (a b : Status) : bool :=
  match a, b with
  | Available, Available | Occupied, Occupied
  | Maintenance, Maintenance | Blocked, Blocked => true
  | _, _ => false
  end.

Record t := mk
  { id : Z;
    room_number : string;
    room_type_id : Z;
    status : Status;
    is_active : bool }.
End Room.

(** [RoomRate]: a price override over the closed interval
    [start_date .. end_date]; [Meta.ordering = ['-start_date']]. *)
Module RoomRate.
Record t := mk
  { id : Z;
    room_type_id : Z;
    start_date : date;
    end_date : date;
    price : Z }.

Definition is_active (today : date) (self : t) : bool :=
  (start_date self <=? today) && (today <=? end_date self).

(** [ORDER BY start_date DESC], as an insertion sort over the rows.  The
    query names no second sort key; rows with equal [start_date] keep the
    order of the table (primary-key order), which is how SQLite returns
    them. *)
Fixpoint insert_desc (r : t) (l : list t) : list t :=
  match l with
  | [] => [r]
  | x :: tl =>
      if start_date x <=? start_date r then r :: l
      else x :: insert_desc r tl
  end.

Fixpoint order_by_start_date_desc (l : list t) : list t :=
  match l with
  | [] => []
  | r :: tl => insert_desc r (order_by_start_date_desc tl)
  end.
End RoomRate.

(** [Booking] with its [STATUS_CHOICES] and methods. *)
Module Booking.
Inductive Status := Pending | Confirmed | CheckedIn | CheckedOut | Cancelled.

Definition status_eqb (a b : Status) : bool :=
  match a, b with
  | Pending, Pending | Confirmed, Confirmed | CheckedIn, CheckedIn
  | CheckedOut, CheckedOut | Cancelled, Cancelled => true
  | _, _ => false
  end.

(** [status__in=[...]] and [self.status in [...]]. *)
Definition status_in (s : Status) (l : list Status) : bool :=
  existsb (status_eqb s) l.

(** The stored key of each status, and the table [STATUS_CHOICES]. *)
Definition key (s : Status) : string :=
  match s with
  | Pending => "pending"
  | Confirmed => "confirmed"
  | CheckedIn => "checked_in"
  | CheckedOut => "checked_out"
  | Cancelled => "cancelled"
  end.

Definition STATUS_CHOICES : list (Status * string) :=
  [ (Pending, "Pending"); (Confirmed, "Confirmed");
    (CheckedIn, "Checked In"); (CheckedOut, "Checked Out");
    (Cancelled, "Cancelled") ].

(** [k in dict(STATUS_CHOICES)], returning the status the key denotes. *)
Definition of_key (k : string) : option Status :=
  option_map fst
    (find (fun c => String.eqb (key (fst c)) k) STATUS_CHOICES).

Definition get_status_display (s : Status) : string :=
  match find (fun c => status_eqb (fst c) s) STATUS_CHOICES with
  | Some c => snd c
  | None => key s
  end.

Record t := mk
  { pk : Z;
    user : option Z;
    room : Z;
    check_in : date;
    check_out : date;
    num_guests : Z;
    status : Status;
    total_price : Z }.

Definition set_status (s : Status) (b : t) : t :=
  mk (pk b) (user b) (room b) (check_in b) (check_out b)
     (num_guests b) s (total_price b).

Definition get_num_nights (self : t) : Z :=
  check_out self - check_in self.

(** The filter of [is_overlapping] applied to one row [b]. *)
Definition overlaps_row (self b : t) : bool :=
  (room b =? room self)
  && status_in (status b) [Pending; Confirmed; CheckedIn]
  && (check_in b <? check_out self)
  && (check_out b >? check_in self)
  && negb (pk b =? pk self).

Definition is_overlapping (objects : list t) (self : t) : bool :=
  existsb (overlaps_row self) objects.

Definition can_cancel (today : date) (self : t) : bool :=
  if status_in (status self) [CheckedIn; CheckedOut; Cancelled] then false
  else (check_in self - today >? 1).
End Booking.

(** [Payment]: [amount] is the value handed to [Payment.objects.create],
    the finite float that [float(...)] returned, as the rational it
    denotes.  The column keeps it rounded to two decimals, so the amount
    read back from a row may differ from it; infinities and NaN, and
    amounts of more than eight integer digits, make the insert raise and
    are not represented. *)
Module Payment.
Inductive Status := Pending | Completed | Failed | Refunded.

Record t := mk
  { booking : Z;
    amount : Q;
    method : string;
    status : Status }.
End Payment.

(** [PromoCode]; [max_uses] is nullable. *)
Module PromoCode.
Inductive DiscountType := Fixed | Percentage.

Record t := mk
  { code : string;
    discount_type : DiscountType;
    discount_value : Z;
    valid_from : date;
    valid_to : date;
    is_active : bool;
    max_uses : option Z;
    times_used : Z }.

(** The test [self.max_uses and self.times_used >= self.max_uses] goes by
    Python truthiness: [None] and [0] are both false, and then the
    comparison is not evaluated. *)
Definition is_valid_now (today : date) (self : t) : bool :=
  if negb (is_active self) then false
  else if negb ((valid_from self <=? today) && (today <=? valid_to self))
  then false
  else
    match max_uses self with
    | None => true
    | Some n =>
        if negb (n =? 0) && (times_used self >=? n) then false else true
    end.
End PromoCode.

(** ** The database and the request context *)

Record DB := mkDB
  { room_types : list RoomType.t;
    rooms : list Room.t;
    rates : list RoomRate.t;
    bookings : list Booking.t;
    payments : list Payment.t }.

Definition with_bookings (db : DB) (bs : list Booking.t) : DB :=
  mkDB (room_types db) (rooms db) (rates db) bs (payments db).

Definition with_payments (db : DB) (ps : list Payment.t) : DB :=
  mkDB (room_types db) (rooms db) (rates db) (bookings db) ps.

(** [request.user] when authenticated; [None] is the anonymous user. *)
Record User := mkUser
  { user_id : Z;
    is_staff : bool }.

(** A value of [request.POST] after the conversion the view applies to it:
    the key is absent, the conversion raises, or it yields a value. *)
Inductive PostField (A : Type) :=
| Absent
| Malformed
| Parsed (a : A).
Arguments Absent {A}.
Arguments Malformed {A}.
Arguments Parsed {A} a.

Inductive JsonBody :=
| JsonError (error : string)
| JsonException
| JsonAvailability (available : bool) (count : Z) (nights : Z).

Inductive HttpResponse :=
| Redirect (to : string) (message : option string)
| Render (template : string) (errors : list string)
| JsonResponse (body : JsonBody) (status : Z)
| HttpResponseNotAllowed
| HttpResponseServerError
| Http404.

(** [get_object_or_404(Booking, id=booking_id)]. *)
Definition get_booking (db : DB) (booking_id : Z) : option Booking.t :=
  find (fun b => Booking.pk b =? booking_id) (bookings db).

(** [get_object_or_404(Room, id=room_id, is_active=True)]. *)
Definition get_active_room (db : DB) (room_id : Z) : option Room.t :=
  find (fun r => (Room.id r =? room_id) && Room.is_active r) (rooms db).

(** [room.room_type]: the row the foreign key points to. *)
Definition get_room_type (db : DB) (room_type_id : Z) : option RoomType.t :=
  find (fun t => RoomType.id t =? room_type_id) (room_types db).

(** [booking.save()] of a row read from the table: the row with that
    primary key is replaced. *)
Definition save_booking (booking : Booking.t) (db : DB) : DB :=
  with_bookings db
    (map (fun b => if Booking.pk b =? Booking.pk booking then booking else b)
       (bookings db)).

(** The primary key an insert receives: one more than the largest in use. *)
Definition fresh_pk (bs : list Booking.t) : Z :=
  1 + fold_right Z.max 0 (map Booking.pk bs).

(** ** forms.py: [BookingForm] *)

Module BookingForm.
(** The submitted fields after field-level conversion; [None] is a field
    that is missing or does not convert (its field error is recorded and
    [cleaned_data.get] returns [None]). *)
Record data := mk
  { check_in : option date;
    check_out : option date;
    num_guests : option Z }.

Definition required {A} (label : string) (v : option A) : list string :=
  match v with
  | None => [label]
  | Some _ => []
  end.

(** [num_guests = forms.IntegerField(min_value=1, max_value=8)]. *)
Definition num_guests_errors (v : option Z) : list string :=
  match v with
  | None => ["num_guests"]
  | Some n => if (n <? 1) || (n >? 8) then ["num_guests"] else []
  end.

Definition field_errors (d : data) : list string :=
  required "check_in" (check_in d)
  ++ required "check_out" (check_out d)
  ++ num_guests_errors (num_guests d).

(** [clean]: [Some msg] when it raises [forms.ValidationError(msg)]. *)
Definition clean (today : date) (d : data) : option string :=
  match check_in d, check_out d with
  | Some ci, Some co =>
      if co <=? ci
      then Some "Check-out date must be after check-in date."
      else if ci <? today
      then Some "Check-in date cannot be in the past."
      else
        let num_nights := co - ci in
        if num_nights >? 365
        then Some "Booking period cannot exceed 1 year."
        else None
  | _, _ => None
  end.

Definition errors (today : date) (d : data) : list string :=
  field_errors d
  ++ match clean today d with
     | Some e => [e]
     | None => []
     end.

Definition is_valid (today : date) (d : data) : bool :=
  match errors today d with
  | [] => true
  | _ :: _ => false
  end.
End BookingForm.

(** ** views.py *)

Module Views.
Import Booking.

(** *** Payment views *)

(** [request.POST] of [create_payment]: [method] as posted, [amount]
    after [float(amount)] (a finite value; [Absent] raises [TypeError],
    [Malformed] raises [ValueError]). *)
Record PaymentPost := mkPaymentPost
  { method : option string;
    amount : PostField Q }.

(** [booking.user == request.user]. *)
Definition same_user (owner : option Z) (u : User) : bool :=
  match owner with
  | Some o => o =? user_id u
  | None => false
  end.

Definition payment_template := "hotel_app/create_payment.html".

(** [create_payment(request, booking_id)]; [post] is [None] for a request
    that is not a POST.  [Payment.method] is a non-null column, so a
    missing method makes the insert fail and the request ends in a server
    error before the booking is touched. *)
Definition create_payment (db : DB) (user : option User) (booking_id : Z)
    (post : option PaymentPost) : HttpResponse * DB :=
  match user with
  | None => (Redirect "login" None, db)
  | Some u =>
      match get_booking db booking_id with
      | None => (Http404, db)
      | Some booking =>
          if negb (same_user (Booking.user booking) u) && negb (is_staff u)
          then (Redirect "home" (Some "Access denied."), db)
          else
            match post with
            | None => (Render payment_template [], db)
            | Some p =>
                match amount p with
                | Parsed a =>
                    if Qle_bool a 0
                    then (Render payment_template ["Invalid amount."], db)
                    else
                      match method p with
                      | None => (HttpResponseServerError, db)
                      | Some m =>
                          let payment :=
                            Payment.mk (pk booking) a m Payment.Completed in
                          let db1 :=
                            with_payments db (payments db ++ [payment]) in
                          let db2 :=
                            if status_eqb (status booking) Pending
                            then save_booking (set_status Confirmed booking) db1
                            else db1 in
                          (Redirect "booking_confirm"
                             (Some "Payment recorded successfully."), db2)
                      end
                | _ => (Render payment_template ["Invalid amount."], db)
                end
            end
      end
  end.

(** *** Staff views *)

Definition staff_required (user : option User) : bool :=
  match user with
  | Some u => is_staff u
  | None => false
  end.

(** [update_booking_status(request, booking_id)]: [is_post] is the test of
    [require_http_methods(['POST'])], [new_status] is
    [request.POST.get('status')]. *)
Definition update_booking_status (db : DB) (user : option User)
    (is_post : bool) (booking_id : Z) (new_status : option string)
  : HttpResponse * DB :=
  if negb (staff_required user)
  then (Redirect "home" (Some "Staff access required."), db)
  else if negb is_post then (HttpResponseNotAllowed, db)
  else
    match get_booking db booking_id with
    | None => (Http404, db)
    | Some booking =>
        match option_map of_key new_status with
        | Some (Some s) =>
            (Redirect "manage_bookings"
               (Some ("Booking status updated to " ++ get_status_display s
                      ++ ".")),
             save_booking (set_status s booking) db)
        | _ => (Redirect "manage_bookings" None, db)
        end
    end.

(** *** Listing views *)

(** [room_type.rates.filter(start_date__lte=today,
    end_date__gte=today).first()], the related manager ordered by
    [RoomRate.Meta.ordering]. *)
Definition seasonal_rate (db : DB) (room_type : RoomType.t) (today : date)
  : option RoomRate.t :=
  hd_error
    (RoomRate.order_by_start_date_desc
       (filter
          (fun r => (RoomRate.start_date r <=? today)
                    && (RoomRate.end_date r >=? today))
          (filter
             (fun r => RoomRate.room_type_id r =? RoomType.id room_type)
             (rates db)))).

(** [seasonal_rate.price if seasonal_rate else room_type.base_price]. *)
Definition current_price (db : DB) (room_type : RoomType.t) (today : date)
  : Z :=
  match seasonal_rate db room_type today with
  | Some r => RoomRate.price r
  | None => RoomType.base_price room_type
  end.

(** [room_detail(request, room_id)]: the [current_price] of the rendered
    context, [None] for a 404. *)
Definition room_detail (today : date) (db : DB) (room_id : Z) : option Z :=
  match get_active_room db room_id with
  | None => None
  | Some room =>
      match get_room_type db (Room.room_type_id room) with
      | None => None
      | Some room_type => Some (current_price db room_type today)
      end
  end.

(** *** Booking views *)

(** [request.POST] of [check_availability] after [int(...)] and
    [strptime(...).date()]; [room_type_id] is handed to the ORM as
    posted. *)
Record AvailabilityPost := mkAvailabilityPost
  { q_check_in : PostField date;
    q_check_out : PostField date;
    q_room_type_id : PostField Z;
    q_capacity : PostField Z }.

(** [Booking.objects.filter(status__in=['confirmed', 'checked_in'],
    check_in__lt=check_out, check_out__gt=check_in)
    .values_list('room_id', flat=True)]. *)
Definition booked_rooms (db : DB) (check_in check_out : date) : list Z :=
  map Booking.room
    (filter
       (fun b => status_in (status b) [Confirmed; CheckedIn]
                 && (Booking.check_in b <? check_out)
                 && (Booking.check_out b >? check_in))
       (bookings db)).

(** [room_type_id=room_type_id]: a missing key is [None], which the ORM
    turns into [IS NULL], and the column is not nullable. *)
Definition room_type_matches (f : PostField Z) (r : Room.t) : bool :=
  match f with
  | Parsed t => Room.room_type_id r =? t
  | _ => false
  end.

(** [room_type__capacity__gte=capacity], a join on the room type. *)
Definition capacity_gte (db : DB) (capacity : Z) (r : Room.t) : bool :=
  match get_room_type db (Room.room_type_id r) with
  | Some t => RoomType.capacity t >=? capacity
  | None => false
  end.

Definition available_rooms (db : DB) (room_type_id : PostField Z)
    (capacity : Z) (check_in check_out : date) : list Room.t :=
  filter
    (fun r => Room.is_active r
              && Room.status_eqb (Room.status r) Room.Available
              && room_type_matches room_type_id r
              && capacity_gte db capacity r
              && negb (existsb (Z.eqb (Room.id r))
                         (booked_rooms db check_in check_out)))
    (rooms db).

(** [check_availability(request)]; [post] is [None] for a request that is
    not a POST.  Every exception of the [try] block ends in the same
    status-400 response: a field that does not convert, and a capacity or
    room type outside the database's integer range, which raises when
    [available_rooms.count()] runs the query. *)
Definition check_availability (today : date) (db : DB)
    (post : option AvailabilityPost) : HttpResponse :=
  match post with
  | None => JsonResponse (JsonError "Invalid method") 400
  | Some q =>
      match
        match q_capacity q with
        | Absent => Some 1
        | Malformed => None
        | Parsed n => Some n
        end, q_check_in q, q_check_out q
      with
      | Some capacity, Parsed check_in, Parsed check_out =>
          if check_in >=? check_out
          then JsonResponse (JsonError "Check-out must be after check-in") 400
          else if check_in <? today
          then JsonResponse (JsonError "Check-in cannot be in the past") 400
          else
            match q_room_type_id q with
            | Malformed => JsonResponse JsonException 400
            | room_type_id =>
                if fits_int64 capacity
                   && match room_type_id with
                      | Parsed t => fits_int64 t
                      | _ => true
                      end
                then
                  let num_available :=
                    Z.of_nat (List.length (available_rooms db room_type_id
                                             capacity check_in check_out)) in
                  let num_nights := check_out - check_in in
                  JsonResponse
                    (JsonAvailability (num_available >? 0) num_available
                       num_nights) 200
                else JsonResponse JsonException 400
            end
      | _, _, _ => JsonResponse JsonException 400
      end
  end.

(** The overlap query of [create_booking]. *)
Definition overlap (db : DB) (room : Room.t) (check_in check_out : date)
  : bool :=
  existsb
    (fun b => (Booking.room b =? Room.id room)
              && status_in (status b) [Confirmed; CheckedIn]
              && (Booking.check_in b <? check_out)
              && (Booking.check_out b >? check_in))
    (bookings db).

(** What [create_booking] holds in local variables once the overlap query
    has returned false: the user, the room and its (cached) room type, and
    the cleaned form data. *)
Record Checked := mkChecked
  { c_user : User;
    c_room : Room.t;
    c_room_type : RoomType.t;
    c_check_in : date;
    c_check_out : date;
    c_num_guests : Z }.

Definition booking_template := "hotel_app/create_booking.html".

(** [create_booking] up to and including the overlap query: either the
    response of an early exit, or the locals of the request. *)
Definition create_booking_check (today : date) (db : DB)
    (user : option User) (room_id : Z) (post : option BookingForm.data)
  : HttpResponse + Checked :=
  match user with
  | None => inl (Redirect "login" None)
  | Some u =>
      match get_active_room db room_id with
      | None => inl Http404
      | Some room =>
          match post with
          | None => inl (Render booking_template [])
          | Some form =>
              if BookingForm.is_valid today form then
                match BookingForm.check_in form, BookingForm.check_out form,
                      BookingForm.num_guests form with
                | Some check_in, Some check_out, Some num_guests =>
                    match get_room_type db (Room.room_type_id room) with
                    | None => inl HttpResponseServerError
                    | Some room_type =>
                        if num_guests >? RoomType.capacity room_type
                        then inl (Redirect "room_detail"
                                    (Some ("Room capacity is "
                                           ++ str (RoomType.capacity room_type)
                                           ++ " guests.")))
                        else if overlap db room check_in check_out
                        then inl (Redirect "room_detail"
                                    (Some "Room is not available for those dates."))
                        else inr (mkChecked u room room_type check_in
                                    check_out num_guests)
                    end
                | _, _, _ => inl (Render booking_template
                                    (BookingForm.errors today form))
                end
              else inl (Render booking_template
                          (BookingForm.errors today form))
          end
      end
  end.

(** The rest of [create_booking]: the price from the rate in force today,
    and the insert of the new row ([status] takes its default). *)
Definition create_booking_insert (today : date) (db : DB) (c : Checked)
  : HttpResponse * DB :=
  let num_nights := c_check_out c - c_check_in c in
  let nightly_rate := current_price db (c_room_type c) today in
  let total_price := num_nights * nightly_rate in
  let booking :=
    Booking.mk (fresh_pk (bookings db)) (Some (user_id (c_user c)))
      (Room.id (c_room c)) (c_check_in c) (c_check_out c)
      (c_num_guests c) Pending total_price in
  (Redirect "booking_confirm" (Some "Booking created! Proceed to payment."),
   with_bookings db (bookings db ++ [booking])).

(** [create_booking(request, room_id)] run without interruption. *)
Definition create_booking (today : date) (db : DB) (user : option User)
    (room_id : Z) (post : option BookingForm.data) : HttpResponse * DB :=
  match create_booking_check today db user room_id post with
  | inl response => (response, db)
  | inr c => create_booking_insert today db c
  end.
End Views.

(** ** admin.py: the actions of [BookingAdmin] *)

Module BookingAdmin.
Import Booking.

(** [queryset.filter(status__in=from).update(status=to)] on the rows whose
    primary key is in [selected]; returns the number of rows updated. *)
Definition update_status (from : list Status) (to : Status)
    (selected : list Z) (db : DB) : Z * DB :=
  let hit b :=
    existsb (Z.eqb (pk b)) selected && status_in (status b) from in
  (Z.of_nat (List.length (filter hit (bookings db))),
   with_bookings db
     (map (fun b => if hit b then set_status to b else b) (bookings db))).

Definition confirm_booking (selected : list Z) (db : DB) : Z * DB :=
  update_status [Pending] Confirmed selected db.

Definition cancel_booking (selected : list Z) (db : DB) : Z * DB :=
  update_status [Pending; Confirmed] Cancelled selected db.
End BookingAdmin.

(** ** views.py: the read-only pages *)

(** [ORDER BY] as a stable insertion sort, applied to the rows the filters
    keep: [le x y] says that [x] may come before [y]. *)
Fixpoint insert_by {A} (le : A -> A -> bool) (x : A) (l : list A) : list A :=
  match l with
  | [] => [x]
  | y :: tl => if le x y then x :: l else y :: insert_by le x tl
  end.

Fixpoint order_by {A} (le : A -> A -> bool) (l : list A) : list A :=
  match l with
  | [] => []
  | x :: tl => insert_by le x (order_by le tl)
  end.

(** What a page view answers: the rendered template with its context, a
    redirect with its flash message, a 404, or a server error. *)
Inductive PageResponse (A : Type) :=
| Shown (template : string) (context : A)
| Sent (to : string) (message : option string)
| NotFound
| Failed.
Arguments Shown {A} template context.
Arguments Sent {A} to message.
Arguments NotFound {A}.
Arguments Failed {A}.

Module Pages.
Import Booking.

(** [order_by('-check_in')]. *)
Definition by_check_in_desc (a b : Booking.t) : bool :=
  Booking.check_in b <=? Booking.check_in a.

(** [user_bookings(request)]: the context's [bookings]. *)
Definition user_bookings (db : DB) (user : option User)
  : PageResponse (list Booking.t) :=
  match user with
  | None => Sent "login" None
  | Some u =>
      Shown "hotel_app/user_bookings.html"
        (order_by by_check_in_desc
           (filter (fun b => Views.same_user (Booking.user b) u)
              (bookings db)))
  end.

(** [manage_bookings(request)]: [status] is [request.GET.get('status')];
    the context's [bookings] and [selected_status]. *)
Definition manage_bookings (db : DB) (user : option User)
    (status : option string)
  : PageResponse (list Booking.t * option string) :=
  if negb (Views.staff_required user)
  then Sent "home" (Some "Staff access required.")
  else
    let bookings :=
      match status with
      | None | Some "" => bookings db
      | Some s =>
          filter (fun b => String.eqb (key (Booking.status b)) s)
            (bookings db)
      end in
    Shown "hotel_app/manage_bookings.html"
      (order_by by_check_in_desc bookings, status).

(** [booking_confirm(request, booking_id)]: the context's [booking] and
    [num_nights]. *)
Definition booking_confirm (db : DB) (user : option User) (booking_id : Z)
  : PageResponse (Booking.t * Z) :=
  match get_booking db booking_id with
  | None => NotFound
  | Some booking =>
      let denied :=
        match user with
        | Some u =>
            negb (Views.same_user (Booking.user booking) u)
            && negb (is_staff u)
        | None => false
        end in
      if denied then Sent "home" (Some "Access denied.")
      else Shown "hotel_app/booking_confirm.html"
             (booking, get_num_nights booking)
  end.

(** The stored key of a room status ([Room.STATUS_CHOICES]). *)
Definition room_status_key (s : Room.Status) : string :=
  match s with
  | Room.Available => "available"
  | Room.Occupied => "occupied"
  | Room.Maintenance => "maintenance"
  | Room.Blocked => "blocked"
  end.

Section Collation.
(** The order the database puts on character columns. *)
Variable collate : string -> string -> bool.

(** [Room.Meta.ordering = ['room_number']] and
    [RoomType.Meta.ordering = ['name']]. *)
Definition by_room_number (a b : Room.t) : bool :=
  collate (Room.room_number a) (Room.room_number b).

Definition by_name (a b : RoomType.t) : bool :=
  collate (RoomType.name a) (RoomType.name b).

(** [home(request)]: the context's [featured_rooms] and [room_types]. *)
Definition home (db : DB) : list Room.t * list RoomType.t :=
  (firstn 6
     (order_by by_room_number
        (filter
           (fun r => Room.is_active r
                     && Room.status_eqb (Room.status r) Room.Available)
           (rooms db))),
   order_by by_name (room_types db)).

(** [room_list(request)]: [room_type_id] and [capacity] are the GET
    parameters ([Absent] when missing or empty; a [room_type] that is not a
    number makes the ORM raise, a [capacity] that is not a number is
    skipped by the [except ValueError: pass]); [status] is
    [request.GET.get('status')], whose default is ['available'].  The
    context's [rooms] and [room_types]. *)
Definition room_list (db : DB) (room_type_id capacity : PostField Z)
    (status : option string)
  : PageResponse (list Room.t * list RoomType.t) :=
  let rooms := filter Room.is_active (rooms db) in
  match room_type_id with
  | Malformed => Failed
  | _ =>
      let rooms :=
        match room_type_id with
        | Parsed t => filter (fun r => Room.room_type_id r =? t) rooms
        | _ => rooms
        end in
      let rooms :=
        match capacity with
        | Parsed n => filter (Views.capacity_gte db n) rooms
        | _ => rooms
        end in
      let status :=
        match status with
        | None => "available"
        | Some s => s
        end in
      let rooms :=
        match status with
        | "" => rooms
        | s =>
            filter (fun r => String.eqb (room_status_key (Room.status r)) s)
              rooms
        end in
      Shown "hotel_app/room_list.html"
        (order_by by_room_number rooms, order_by by_name (room_types db))
  end.
End Collation.
End Pages.

(** * Definitions used in the statements *)

(** A rate of room type [T] whose closed interval contains [d]. *)
Definition rate_applies (db : DB) (T : RoomType.t) (d : date)
    (r : RoomRate.t) : Prop :=
  In r (rates db)
  /\ RoomRate.room_type_id r = RoomType.id T
  /\ RoomRate.start_date r <= d <= RoomRate.end_date r.

(** The usage rule as the specification words it: the active flag is set,
    today lies within the validity interval, and [max_uses] is unset or
    [times_used < max_uses]. *)
Definition spec_promo_valid (today : date) (p : PromoCode.t) : bool :=
  PromoCode.is_active p
  && ((PromoCode.valid_from p <=? today) && (today <=? PromoCode.valid_to p))
  && match PromoCode.max_uses p with
     | None => true
     | Some n => PromoCode.times_used p <? n
     end.

(** A code capped at zero uses, inside its validity window. *)
Definition promo_zero_cap : PromoCode.t :=
  PromoCode.mk "WELCOME" PromoCode.Fixed 50000 739007 739041 true (Some 0) 0.

(** ** Sample data *)

Definition type_double : RoomType.t := RoomType.mk 1 "Double" 200000 2.
Definition type_suite : RoomType.t := RoomType.mk 2 "Suite" 350000 4.
Definition room_101 : Room.t := Room.mk 1 "101" 1 Room.Available true.
Definition room_102 : Room.t := Room.mk 2 "102" 1 Room.Maintenance true.
Definition room_201 : Room.t := Room.mk 3 "201" 2 Room.Available true.
Definition rate_holiday : RoomRate.t := RoomRate.mk 1 2 739240 739246 500000.
Definition guest : User := mkUser 7 false.
Definition other_guest : User := mkUser 8 false.
Definition clerk : User := mkUser 1 true.

(** The hotel with no booking, and with one booking [b] on record. *)
Definition hotel : DB :=
  mkDB [type_double; type_suite] [room_101; room_102; room_201]
    [rate_holiday] [] [].

Definition hotel_with (bs : list Booking.t) : DB := with_bookings hotel bs.

(** 2024-06-01 is day 739038; a stay of room 101 from 06-02 to 06-04. *)
Definition stay_tomorrow (s : Booking.Status) : Booking.t :=
  Booking.mk 1 (Some 7) 1 739039 739041 2 s 400000.

(** The operations of the code that write [Booking.status]. *)
Inductive LifecycleOp :=
| RecordPayment (user : option User) (booking_id : Z)
    (post : option Views.PaymentPost)
| AdminConfirm (selected : list Z)
| AdminCancel (selected : list Z)
| SetStatus (user : option User) (is_post : bool) (booking_id : Z)
    (new_status : option string).

Definition apply_op (op : LifecycleOp) (db : DB) : DB :=
  match op with
  | RecordPayment user booking_id post =>
      snd (Views.create_payment db user booking_id post)
  | AdminConfirm selected => snd (BookingAdmin.confirm_booking selected db)
  | AdminCancel selected => snd (BookingAdmin.cancel_booking selected db)
  | SetStatus user is_post booking_id new_status =>
      snd (Views.update_booking_status db user is_post booking_id new_status)
  end.

Definition run_ops (ops : list LifecycleOp) (db : DB) : DB :=
  fold_left (fun d op => apply_op op d) ops db.

Definition is_set_status (op : LifecycleOp) : bool :=
  match op with
  | SetStatus _ _ _ _ => true
  | _ => false
  end.

Definition status_of (db : DB) (k : Z) : option Booking.Status :=
  option_map Booking.status (get_booking db k).

(** Where a status can get to without the staff view: nowhere from
    checked_in, checked_out or cancelled; to cancelled only from pending or
    confirmed. *)
Definition follows (s s' : Booking.Status) : Prop :=
  s' = s
  \/ (s = Booking.Pending
      /\ (s' = Booking.Confirmed \/ s' = Booking.Cancelled))
  \/ (s = Booking.Confirmed /\ s' = Booking.Cancelled).

(** The stay price as the specification words it: the sum, over each date
    [d] of [check_in .. check_out - 1], of the nightly quote of the room
    type on [d]. *)
Definition spec_price_stay (db : DB) (T : RoomType.t)
    (check_in check_out : date) : Z :=
  fold_right Z.add 0
    (map (fun i => Views.current_price db T (check_in + Z.of_nat i))
       (seq 0 (Z.to_nat (check_out - check_in)))).

(** Booking [b] holds room [r] over part of [[ci, co)] in one of the
    [statuses]: the half-open overlap test
    [b.check_in < co /\ b.check_out > ci]. *)
Definition blocks (statuses : list Booking.Status) (ci co : date)
    (r : Room.t) (b : Booking.t) : Prop :=
  Booking.room b = Room.id r
  /\ In (Booking.status b) statuses
  /\ Booking.check_in b < co
  /\ Booking.check_out b > ci.

(** *** Requests served side by side *)

(** [create_booking] reads the table (the overlap query) and later writes
    it ([booking.save()]); nothing in the view holds the table between the
    two, so another request may be served in between.  A worker is a
    request in progress; a schedule says which worker takes the next
    database step. *)
Inductive Request :=
| BookingRequest (user : option User) (room_id : Z)
    (post : option BookingForm.data)
| PaymentRequest (user : option User) (booking_id : Z)
    (post : option Views.PaymentPost).

Inductive Worker :=
| Waiting (request : Request)
| Checked (c : Views.Checked)
| Done (response : HttpResponse).

Definition step (today : date) (w : Worker) (db : DB) : Worker * DB :=
  match w with
  | Waiting (BookingRequest user room_id post) =>
      match Views.create_booking_check today db user room_id post with
      | inl response => (Done response, db)
      | inr c => (Checked c, db)
      end
  | Waiting (PaymentRequest user booking_id post) =>
      let (response, db') := Views.create_payment db user booking_id post in
      (Done response, db')
  | Checked c =>
      let (response, db') := Views.create_booking_insert today db c in
      (Done response, db')
  | Done response => (Done response, db)
  end.

Fixpoint set_nth {A} (i : nat) (x : A) (l : list A) : list A :=
  match l, i with
  | [], _ => []
  | _ :: tl, O => x :: tl
  | y :: tl, S j => y :: set_nth j x tl
  end.

Fixpoint run (today : date) (schedule : list nat) (ws : list Worker)
    (db : DB) : list Worker * DB :=
  match schedule with
  | [] => (ws, db)
  | i :: rest =>
      match nth_error ws i with
      | None => run today rest ws db
      | Some w =>
          let (w', db') := step today w db in
          run today rest (set_nth i w' ws) db'
      end
  end.

(** Two guests ask for room 101 on 2024-05-01, one for 06-01 to 06-04, the
    other for 06-02 to 06-03. *)
Definition request_a : Request :=
  BookingRequest (Some guest) 1
    (Some (BookingForm.mk (Some 739038) (Some 739041) (Some 2))).

Definition request_b : Request :=
  BookingRequest (Some other_guest) 1
    (Some (BookingForm.mk (Some 739039) (Some 739040) (Some 1))).

Definition booking_a : Booking.t :=
  Booking.mk 1 (Some 7) 1 739038 739041 2 Booking.Pending 600000.

Definition booking_b : Booking.t :=
  Booking.mk 2 (Some 8) 1 739039 739040 1 Booking.Pending 200000.

Definition created : HttpResponse :=
  Redirect "booking_confirm" (Some "Booking created! Proceed to payment.").

(** Every way to schedule two workers of two steps each: worker 0's steps
    in order, worker 1's steps in order. *)
Definition schedules_of_two : list (list nat) :=
  [ [0; 0; 1; 1]; [0; 1; 0; 1]; [0; 1; 1; 0];
    [1; 0; 0; 1]; [1; 0; 1; 0]; [1; 1; 0; 0] ]%nat.

(** * Properties *)

(** ** Statuses and row lookup *)

Lemma booking_status_eqb_eq (a b : Booking.Status) :
  Booking.status_eqb a b = true <-> a = b.
Proof. destruct a, b; simpl; split; congruence. Qed.

Lemma room_status_eqb_eq (a b : Room.Status) :
  Room.status_eqb a b = true <-> a = b.
Proof. destruct a, b; simpl; split; congruence. Qed.

Lemma status_in_In (s : Booking.Status) (l : list Booking.Status) :
  Booking.status_in s l = true <-> In s l.
Proof.
  unfold Booking.status_in. rewrite existsb_exists. split.
  - intros [x [Hx He]]. apply booking_status_eqb_eq in He. now subst.
  - intros H. exists s. split; [exact H | now apply booking_status_eqb_eq].
Qed.

Lemma set_status_pk (s : Booking.Status) (b : Booking.t) :
  Booking.pk (Booking.set_status s b) = Booking.pk b.
Proof. reflexivity. Qed.

(** Looking a row up after an update that keeps primary keys. *)
Lemma find_pk_map (f : Booking.t -> Booking.t) (k : Z) (l : list Booking.t) :
  (forall b, Booking.pk (f b) = Booking.pk b) ->
  find (fun b => Booking.pk b =? k) (map f l)
  = option_map f (find (fun b => Booking.pk b =? k) l).
Proof.
  intros Hpk. induction l as [|x tl IH]; simpl; [reflexivity|].
  rewrite Hpk. destruct (Booking.pk x =? k); [reflexivity | exact IH].
Qed.

Lemma get_booking_pk (db : DB) (k : Z) (b : Booking.t) :
  get_booking db k = Some b -> Booking.pk b = k.
Proof.
  unfold get_booking. intros H. apply find_some in H.
  destruct H as [_ H]. now apply Z.eqb_eq in H.
Qed.

Lemma get_booking_save (db : DB) (k : Z) (b b' : Booking.t) :
  get_booking db k = Some b ->
  Booking.pk b' = k ->
  get_booking (save_booking b' db) k = Some b'.
Proof.
  intros Hget Hk. unfold get_booking, save_booking. simpl.
  rewrite find_pk_map.
  - fold (get_booking db k). rewrite Hget. simpl.
    apply get_booking_pk in Hget. rewrite Hget, Hk, Z.eqb_refl. reflexivity.
  - intros x. destruct (Booking.pk x =? Booking.pk b') eqn:E; [|reflexivity].
    apply Z.eqb_eq in E. now symmetry.
Qed.

Lemma get_booking_with_payments (db : DB) (ps : list Payment.t) (k : Z) :
  get_booking (with_payments db ps) k = get_booking db k.
Proof. reflexivity. Qed.

(** ** Seasonal rates: the first row of the ordered queryset *)

Section OrderByStartDate.
Import RoomRate.

Lemma insert_desc_In (r x : t) (l : list t) :
  In x (insert_desc r l) <-> x = r \/ In x l.
Proof.
  induction l as [|y tl IH]; simpl.
  - intuition.
  - destruct (start_date y <=? start_date r); simpl; [intuition|].
    rewrite IH. intuition.
Qed.

Lemma order_by_start_date_desc_In (x : t) (l : list t) :
  In x (order_by_start_date_desc l) <-> In x l.
Proof.
  induction l as [|y tl IH]; simpl; [tauto|].
  rewrite insert_desc_In, IH. intuition.
Qed.

Lemma hd_insert_desc (r : t) (l : list t) :
  hd_error (insert_desc r l)
  = match hd_error l with
    | None => Some r
    | Some h => if start_date h <=? start_date r then Some r else Some h
    end.
Proof.
  destruct l as [|h tl]; simpl; [reflexivity|].
  destruct (start_date h <=? start_date r); reflexivity.
Qed.

Lemma hd_order_none (l : list t) :
  hd_error (order_by_start_date_desc l) = None -> l = [].
Proof.
  destruct l as [|y tl]; simpl; [reflexivity|].
  rewrite hd_insert_desc.
  destruct (hd_error (order_by_start_date_desc tl)) as [h|];
    [destruct (start_date h <=? start_date y)|]; discriminate.
Qed.

(** The head of the ordered queryset is a row of it with the greatest
    [start_date]. *)
Lemma hd_order_latest (l : list t) (r : t) :
  hd_error (order_by_start_date_desc l) = Some r ->
  In r l /\ forall x, In x l -> start_date x <= start_date r.
Proof.
  revert r. induction l as [|y tl IH]; simpl; intros r H; [discriminate|].
  rewrite hd_insert_desc in H.
  destruct (hd_error (order_by_start_date_desc tl)) as [h|] eqn:Eh.
  - destruct (IH h eq_refl) as [Hin Hmax].
    destruct (start_date h <=? start_date y) eqn:Ele; inversion H; subst.
    + apply Z.leb_le in Ele. split; [now left|].
      intros x [->|Hx]; [lia|]. specialize (Hmax x Hx). lia.
    + apply Z.leb_gt in Ele. split; [now right|].
      intros x [->|Hx]; [lia | now apply Hmax].
  - apply hd_order_none in Eh. subst tl. inversion H; subst.
    split; [now left|]. intros x [->|[]]. lia.
Qed.
End OrderByStartDate.

Lemma rate_applies_filter (db : DB) (T : RoomType.t) (d : date)
    (r : RoomRate.t) :
  In r (filter
          (fun r => (RoomRate.start_date r <=? d) && (RoomRate.end_date r >=? d))
          (filter (fun r => RoomRate.room_type_id r =? RoomType.id T)
             (rates db)))
  <-> rate_applies db T d r.
Proof.
  unfold rate_applies. rewrite !filter_In, andb_true_iff, Z.eqb_eq,
    Z.leb_le, Z.geb_le. intuition.
Qed.

Lemma seasonal_rate_some (db : DB) (T : RoomType.t) (d : date)
    (r : RoomRate.t) :
  Views.seasonal_rate db T d = Some r ->
  rate_applies db T d r
  /\ forall r', rate_applies db T d r' ->
                RoomRate.start_date r' <= RoomRate.start_date r.
Proof.
  unfold Views.seasonal_rate. intros H.
  apply hd_order_latest in H. destruct H as [Hin Hmax]. split.
  - now apply rate_applies_filter.
  - intros r' Hr'. apply Hmax. now apply rate_applies_filter.
Qed.

Lemma seasonal_rate_none (db : DB) (T : RoomType.t) (d : date) :
  Views.seasonal_rate db T d = None ->
  forall r, ~ rate_applies db T d r.
Proof.
  unfold Views.seasonal_rate. intros H r Hr.
  apply hd_order_none in H. apply rate_applies_filter in Hr.
  rewrite H in Hr. exact Hr.
Qed.

(** C4. For every room type [T] and date [d], the nightly quote
    ([current_price], the value [room_detail] shows and [create_booking]
    charges) is the price of a rate of [T] whose closed interval
    [start_date .. end_date] contains [d] and whose [start_date] is the
    latest among all such rates, and it is [T.base_price] when no rate of
    [T] contains [d]. *)
Theorem quote_latest_start_date_wins (db : DB) (T : RoomType.t) (d : date) :
  (exists r,
      rate_applies db T d r
      /\ (forall r', rate_applies db T d r' ->
                     RoomRate.start_date r' <= RoomRate.start_date r)
      /\ Views.current_price db T d = RoomRate.price r)
  \/ ((forall r, ~ rate_applies db T d r)
      /\ Views.current_price db T d = RoomType.base_price T).
Proof.
  unfold Views.current_price.
  destruct (Views.seasonal_rate db T d) as [r|] eqn:E.
  - left. exists r. destruct (seasonal_rate_some _ _ _ _ E) as [Ha Hm].
    repeat split; try apply Ha. exact Hm.
  - right. split; [now apply seasonal_rate_none | reflexivity].
Qed.

(** ** Promo codes *)

(** What [is_valid_now] decides: a [max_uses] of zero counts as no limit. *)
Lemma is_valid_now_iff (today : date) (p : PromoCode.t) :
  PromoCode.is_valid_now today p = true
  <-> PromoCode.is_active p = true
      /\ PromoCode.valid_from p <= today <= PromoCode.valid_to p
      /\ (PromoCode.max_uses p = None
          \/ PromoCode.max_uses p = Some 0
          \/ exists n, PromoCode.max_uses p = Some n
                       /\ PromoCode.times_used p < n).
Proof.
  unfold PromoCode.is_valid_now.
  destruct (PromoCode.is_active p); simpl; [|intuition discriminate].
  destruct (PromoCode.valid_from p <=? today) eqn:E1; simpl;
    [apply Z.leb_le in E1 | apply Z.leb_gt in E1; intuition (try lia; discriminate)].
  destruct (today <=? PromoCode.valid_to p) eqn:E2; simpl;
    [apply Z.leb_le in E2 | apply Z.leb_gt in E2; intuition (try lia; discriminate)].
  destruct (PromoCode.max_uses p) as [n|]; [|intuition].
  destruct (n =? 0) eqn:E3; simpl.
  - apply Z.eqb_eq in E3. subst n. intuition.
  - apply Z.eqb_neq in E3.
    destruct (PromoCode.times_used p >=? n) eqn:E4.
    + apply Z.geb_le in E4. split; [discriminate|].
      intros (_ & _ & [H|[H|(m & H & Hlt)]]); try congruence.
      inversion H; subst. lia.
    + rewrite Z.geb_leb in E4. apply Z.leb_gt in E4.
      split; [|reflexivity]. intros _. repeat split; try lia.
      right. right. exists n. split; [reflexivity | lia].
Qed.

(** Away from [max_uses = 0] the two rules agree. *)
Lemma is_valid_now_spec (today : date) (p : PromoCode.t) :
  PromoCode.max_uses p <> Some 0 ->
  PromoCode.is_valid_now today p = spec_promo_valid today p.
Proof.
  intros Hm. unfold PromoCode.is_valid_now, spec_promo_valid.
  destruct (PromoCode.is_active p); simpl; [|reflexivity].
  destruct ((PromoCode.valid_from p <=? today)
            && (today <=? PromoCode.valid_to p)); simpl; [|reflexivity].
  destruct (PromoCode.max_uses p) as [n|]; [|reflexivity].
  assert (n <> 0) as Hn by congruence.
  apply Z.eqb_neq in Hn. rewrite Hn. simpl.
  rewrite Z.geb_leb, Z.ltb_antisym.
  destruct (n <=? PromoCode.times_used p); reflexivity.
Qed.

(** C5. The stated usage rule requires [times_used < max_uses] whenever
    [max_uses] is set; on a code with [max_uses = 0] the rule rejects it,
    while [is_valid_now] accepts it. *)
Theorem is_valid_now_accepts_zero_cap :
  PromoCode.is_valid_now 739038 promo_zero_cap = true
  /\ spec_promo_valid 739038 promo_zero_cap = false.
Proof. split; reflexivity. Qed.

(** ** Cancellation *)

Lemma can_cancel_iff (today : date) (b : Booking.t) :
  Booking.can_cancel today b = true
  <-> (Booking.status b = Booking.Pending
       \/ Booking.status b = Booking.Confirmed)
      /\ Booking.check_in b - today > 1.
Proof.
  unfold Booking.can_cancel.
  destruct (Booking.status b); simpl; rewrite ?Z.gtb_gt;
    intuition (try discriminate; try lia).
Qed.

(** The row [k] after an admin action, in terms of the row before. *)
Lemma get_booking_update_status (from : list Booking.Status)
    (to : Booking.Status) (selected : list Z) (db : DB) (k : Z) :
  get_booking (snd (BookingAdmin.update_status from to selected db)) k
  = option_map
      (fun b =>
         if existsb (Z.eqb (Booking.pk b)) selected
            && Booking.status_in (Booking.status b) from
         then Booking.set_status to b else b)
      (get_booking db k).
Proof.
  unfold get_booking, BookingAdmin.update_status. simpl.
  apply find_pk_map. intros b.
  destruct (existsb (Z.eqb (Booking.pk b)) selected
            && Booking.status_in (Booking.status b) from); reflexivity.
Qed.

Lemma selected_In (k : Z) (selected : list Z) :
  In k selected -> existsb (Z.eqb k) selected = true.
Proof.
  intros H. apply existsb_exists. exists k. split; [exact H | apply Z.eqb_refl].
Qed.

(** C6, as the code has it. [can_cancel] holds exactly when the status is
    pending or confirmed and check-in is more than one day away.  The
    admin action [cancel_booking] does not consult it: a selected booking
    becomes cancelled exactly when its status is pending or confirmed,
    whatever the date, and is otherwise left as it is. *)
Theorem cancel_rules (today : date) (db : DB) (selected : list Z)
    (k : Z) (b : Booking.t) :
  get_booking db k = Some b ->
  In k selected ->
  (Booking.can_cancel today b = true
   <-> (Booking.status b = Booking.Pending
        \/ Booking.status b = Booking.Confirmed)
       /\ Booking.check_in b - today > 1)
  /\ ((Booking.status b = Booking.Pending
       \/ Booking.status b = Booking.Confirmed) ->
      get_booking (snd (BookingAdmin.cancel_booking selected db)) k
      = Some (Booking.set_status Booking.Cancelled b))
  /\ (~ (Booking.status b = Booking.Pending
         \/ Booking.status b = Booking.Confirmed) ->
      get_booking (snd (BookingAdmin.cancel_booking selected db)) k = Some b).
Proof.
  intros Hget Hsel. split; [apply can_cancel_iff|].
  unfold BookingAdmin.cancel_booking.
  rewrite get_booking_update_status, Hget. simpl option_map.
  rewrite (get_booking_pk _ _ _ Hget), (selected_In _ _ Hsel).
  split; intros H; destruct (Booking.status b) eqn:E; simpl;
    try reflexivity; exfalso; intuition congruence.
Qed.

Lemma cancel_rules_witness :
  (Booking.can_cancel 739038 (stay_tomorrow Booking.CheckedIn) = true
   <-> (Booking.status (stay_tomorrow Booking.CheckedIn) = Booking.Pending
        \/ Booking.status (stay_tomorrow Booking.CheckedIn) = Booking.Confirmed)
       /\ Booking.check_in (stay_tomorrow Booking.CheckedIn) - 739038 > 1)
  /\ ((Booking.status (stay_tomorrow Booking.CheckedIn) = Booking.Pending
       \/ Booking.status (stay_tomorrow Booking.CheckedIn) = Booking.Confirmed) ->
      get_booking
        (snd (BookingAdmin.cancel_booking [1]
                (hotel_with [stay_tomorrow Booking.CheckedIn]))) 1
      = Some (Booking.set_status Booking.Cancelled
                (stay_tomorrow Booking.CheckedIn)))
  /\ (~ (Booking.status (stay_tomorrow Booking.CheckedIn) = Booking.Pending
         \/ Booking.status (stay_tomorrow Booking.CheckedIn) = Booking.Confirmed) ->
      get_booking
        (snd (BookingAdmin.cancel_booking [1]
                (hotel_with [stay_tomorrow Booking.CheckedIn]))) 1
      = Some (stay_tomorrow Booking.CheckedIn)).
Proof.
  apply (cancel_rules 739038 (hotel_with [stay_tomorrow Booking.CheckedIn])
           [1] 1 (stay_tomorrow Booking.CheckedIn)).
  - reflexivity.
  - simpl. auto.
Defined.

(** C6 does not hold of the admin action: a confirmed booking whose
    check-in is tomorrow fails the cutoff ([can_cancel] is false), and
    [cancel_booking] cancels it all the same. *)
Lemma admin_cancel_ignores_cutoff :
  Booking.status (stay_tomorrow Booking.Confirmed) = Booking.Confirmed
  /\ Booking.check_in (stay_tomorrow Booking.Confirmed) - 739038 = 1
  /\ Booking.can_cancel 739038 (stay_tomorrow Booking.Confirmed) = false
  /\ BookingAdmin.cancel_booking [1]
       (hotel_with [stay_tomorrow Booking.Confirmed])
     = (1, hotel_with [stay_tomorrow Booking.Cancelled]).
Proof. repeat split. Qed.

(** ** Payments and confirmation *)

Lemma get_booking_save_any (db : DB) (k : Z) (b' : Booking.t) :
  get_booking (save_booking b' db) k
  = option_map (fun b => if Booking.pk b =? Booking.pk b' then b' else b)
      (get_booking db k).
Proof.
  unfold get_booking, save_booking. simpl. apply find_pk_map.
  intros x. destruct (Booking.pk x =? Booking.pk b') eqn:E; [|reflexivity].
  apply Z.eqb_eq in E. now symmetry.
Qed.

(** An authorised POST with a positive amount and a method: the payment is
    recorded as completed and a pending booking becomes confirmed; any
    other booking is written back as it was. *)
Lemma create_payment_recorded (db : DB) (u : User) (k : Z) (b : Booking.t)
    (m : string) (a : Q) :
  get_booking db k = Some b ->
  Views.same_user (Booking.user b) u = true \/ is_staff u = true ->
  (0 < a)%Q ->
  let r := Views.create_payment db (Some u) k
             (Some (Views.mkPaymentPost (Some m) (Parsed a))) in
  fst r = Redirect "booking_confirm" (Some "Payment recorded successfully.")
  /\ payments (snd r)
     = (payments db ++ [Payment.mk k a m Payment.Completed])%list
  /\ get_booking (snd r) k
     = Some (if Booking.status_eqb (Booking.status b) Booking.Pending
             then Booking.set_status Booking.Confirmed b else b).
Proof.
  intros Hget Hauth Hpos. cbv zeta. unfold Views.create_payment.
  rewrite Hget.
  assert (negb (Views.same_user (Booking.user b) u) && negb (is_staff u)
          = false) as ->.
  { destruct Hauth as [-> | ->]; simpl; [reflexivity | apply andb_false_r]. }
  cbn [Views.amount Views.method].
  destruct (Qle_bool a 0) eqn:E.
  { apply Qle_bool_iff in E. exfalso. exact (Qle_not_lt _ _ E Hpos). }
  rewrite (get_booking_pk _ _ _ Hget).
  destruct (Booking.status_eqb (Booking.status b) Booking.Pending); simpl.
  - repeat split.
    apply (get_booking_save _ _ b);
      [now rewrite get_booking_with_payments
      | exact (get_booking_pk _ _ _ Hget)].
  - repeat split. now rewrite get_booking_with_payments.
Qed.



(** ** The status lifecycle *)

Lemma follows_trans (a b c : Booking.Status) :
  follows a b -> follows b c -> follows a c.
Proof. unfold follows. destruct a, b, c; intuition congruence. Qed.

Lemma status_of_update_status (from : list Booking.Status)
    (to : Booking.Status) (selected : list Z) (db : DB) (k : Z)
    (s : Booking.Status) :
  status_of db k = Some s ->
  status_of (snd (BookingAdmin.update_status from to selected db)) k
  = Some s
  \/ (In s from
      /\ status_of (snd (BookingAdmin.update_status from to selected db)) k
         = Some to).
Proof.
  unfold status_of. rewrite get_booking_update_status.
  destruct (get_booking db k) as [b|]; simpl; [|discriminate].
  intros H. inversion H; subst.
  destruct (existsb (Z.eqb (Booking.pk b)) selected); simpl; [|now left].
  destruct (Booking.status_in (Booking.status b) from) eqn:E; [|now left].
  right. split; [now apply status_in_In | reflexivity].
Qed.

Lemma status_of_create_payment (db : DB) (user : option User)
    (booking_id : Z) (post : option Views.PaymentPost) (k : Z)
    (s : Booking.Status) :
  status_of db k = Some s ->
  status_of (snd (Views.create_payment db user booking_id post)) k = Some s
  \/ (s = Booking.Pending
      /\ status_of (snd (Views.create_payment db user booking_id post)) k
         = Some Booking.Confirmed).
Proof.
  intros Hs. unfold Views.create_payment.
  destruct user as [u|]; [|now left].
  destruct (get_booking db booking_id) as [booking|] eqn:Hb; [|now left].
  destruct (negb (Views.same_user (Booking.user booking) u)
            && negb (is_staff u)); [now left|].
  destruct post as [p|]; [|now left].
  destruct (Views.amount p) as [| |a]; try now left.
  destruct (Qle_bool a 0); [now left|].
  destruct (Views.method p) as [m|]; [|now left].
  destruct (Booking.status_eqb (Booking.status booking) Booking.Pending)
    eqn:Ep; [|now left].
  apply booking_status_eqb_eq in Ep. simpl snd.
  unfold status_of in *. rewrite get_booking_save_any.
  rewrite get_booking_with_payments.
  destruct (get_booking db k) as [b|] eqn:Hk; simpl in Hs; [|discriminate].
  inversion Hs; subst s. simpl.
  destruct (Booking.pk b =? Booking.pk booking) eqn:E; [|now left].
  right. split; [|reflexivity].
  apply Z.eqb_eq in E.
  apply get_booking_pk in Hb as Hb'. apply get_booking_pk in Hk as Hk'.
  assert (k = booking_id) as Hkb by lia.
  rewrite Hkb, Hb in Hk. inversion Hk; subst. exact Ep.
Qed.

Lemma status_of_apply_op (op : LifecycleOp) (db : DB) (k : Z)
    (s : Booking.Status) :
  is_set_status op = false ->
  status_of db k = Some s ->
  exists s', status_of (apply_op op db) k = Some s' /\ follows s s'.
Proof.
  intros Hop Hs. destruct op; simpl in Hop; try discriminate; simpl.
  - destruct (status_of_create_payment db user booking_id post k s Hs)
      as [H|[-> H]]; eexists; (split; [exact H|]); unfold follows; auto.
  - destruct (status_of_update_status [Booking.Pending] Booking.Confirmed
                selected db k s Hs) as [H|[Hin H]];
      eexists; (split; [exact H|]); unfold follows; simpl in *; intuition.
  - destruct (status_of_update_status [Booking.Pending; Booking.Confirmed]
                Booking.Cancelled selected db k s Hs) as [H|[Hin H]];
      eexists; (split; [exact H|]); unfold follows; simpl in *; intuition.
Qed.

Lemma status_of_run_ops (ops : list LifecycleOp) (db : DB) (k : Z)
    (s : Booking.Status) :
  forallb (fun op => negb (is_set_status op)) ops = true ->
  status_of db k = Some s ->
  exists s', status_of (run_ops ops db) k = Some s' /\ follows s s'.
Proof.
  revert db s. induction ops as [|op tl IH]; intros db s Hall Hs; simpl.
  - exists s. split; [exact Hs | now left].
  - simpl in Hall. apply andb_true_iff in Hall. destruct Hall as [Hop Htl].
    apply negb_true_iff in Hop.
    destruct (status_of_apply_op op db k s Hop Hs) as (s1 & H1 & F1).
    destruct (IH (apply_op op db) s1 Htl H1) as (s2 & H2 & F2).
    exists s2. split; [exact H2 | exact (follows_trans _ _ _ F1 F2)].
Qed.

(** C8, as the code has it. Payment recording and the admin actions keep to
    the transition graph: through any sequence of them a status only
    moves pending to confirmed, or pending or confirmed to cancelled, and a
    cancelled, checked_in or checked_out booking stays as it is.  The staff
    view [update_booking_status] checks the target against the status
    enumeration only: a staff POST naming a status of the enumeration sets
    it whatever the current status, and any other value changes nothing. *)
Theorem lifecycle_transitions (db : DB) (k : Z) (b : Booking.t)
    (ops : list LifecycleOp) (u : User) (new_status : option string) :
  get_booking db k = Some b ->
  forallb (fun op => negb (is_set_status op)) ops = true ->
  is_staff u = true ->
  (exists s', status_of (run_ops ops db) k = Some s'
              /\ follows (Booking.status b) s')
  /\ match option_map Booking.of_key new_status with
     | Some (Some s) =>
         get_booking
           (apply_op (SetStatus (Some u) true k new_status) db) k
         = Some (Booking.set_status s b)
     | _ => apply_op (SetStatus (Some u) true k new_status) db = db
     end.
Proof.
  intros Hget Hops Hstaff. split.
  - apply status_of_run_ops; [exact Hops|].
    unfold status_of. now rewrite Hget.
  - simpl. unfold Views.update_booking_status. simpl. rewrite Hstaff. simpl.
    rewrite Hget.
    destruct (option_map Booking.of_key new_status) as [[s|]|]; simpl;
      try reflexivity.
    apply (get_booking_save _ _ b); [exact Hget|].
    exact (get_booking_pk _ _ _ Hget).
Qed.

Lemma lifecycle_transitions_witness :
  (exists s',
      status_of
        (run_ops [RecordPayment (Some guest) 1
                    (Some (Views.mkPaymentPost (Some "cash") (Parsed (1 # 1)%Q)));
                  AdminCancel [1]; AdminConfirm [1]]
           (hotel_with [stay_tomorrow Booking.Pending])) 1 = Some s'
      /\ follows (Booking.status (stay_tomorrow Booking.Pending)) s')
  /\ get_booking
       (apply_op (SetStatus (Some clerk) true 1 (Some "checked_in"))
          (hotel_with [stay_tomorrow Booking.Pending])) 1
     = Some (Booking.set_status Booking.CheckedIn
               (stay_tomorrow Booking.Pending)).
Proof.
  apply (lifecycle_transitions (hotel_with [stay_tomorrow Booking.Pending]) 1
           (stay_tomorrow Booking.Pending)
           [RecordPayment (Some guest) 1
              (Some (Views.mkPaymentPost (Some "cash") (Parsed (1 # 1)%Q)));
            AdminCancel [1]; AdminConfirm [1]]
           clerk (Some "checked_in")); reflexivity.
Defined.

(** C8 does not hold of the staff view: it takes a cancelled booking back
    to confirmed, and a checked_out booking back to pending. *)
Lemma set_status_revives_cancelled :
  status_of (hotel_with [stay_tomorrow Booking.Cancelled]) 1
  = Some Booking.Cancelled
  /\ Views.update_booking_status (hotel_with [stay_tomorrow Booking.Cancelled])
       (Some clerk) true 1 (Some "confirmed")
     = (Redirect "manage_bookings"
          (Some "Booking status updated to Confirmed."),
        hotel_with [stay_tomorrow Booking.Confirmed])
  /\ status_of
       (apply_op (SetStatus (Some clerk) true 1 (Some "pending"))
          (hotel_with [stay_tomorrow Booking.CheckedOut])) 1
     = Some Booking.Pending.
Proof. repeat split. Qed.

(** ** Form validation *)

(** What [BookingForm.clean] lets through when both dates converted. *)
Lemma clean_accepts_iff (today ci co : date) (n : option Z) :
  BookingForm.clean today (BookingForm.mk (Some ci) (Some co) n) = None
  <-> ci < co /\ today <= ci /\ co - ci <= 365.
Proof.
  unfold BookingForm.clean. simpl.
  destruct (co <=? ci) eqn:E1;
    [apply Z.leb_le in E1 | apply Z.leb_gt in E1].
  { split; [discriminate | lia]. }
  destruct (ci <? today) eqn:E2;
    [apply Z.ltb_lt in E2 | apply Z.ltb_ge in E2].
  { split; [discriminate | lia]. }
  destruct (co - ci >? 365) eqn:E3.
  - apply Z.gtb_gt in E3. split; [discriminate | lia].
  - rewrite Z.gtb_ltb in E3. apply Z.ltb_ge in E3. split; [lia | reflexivity].
Qed.

Lemma is_valid_false_of_clean (today : date) (form : BookingForm.data)
    (msg : string) :
  BookingForm.clean today form = Some msg ->
  BookingForm.is_valid today form = false
  /\ In msg (BookingForm.errors today form).
Proof.
  intros H. unfold BookingForm.is_valid, BookingForm.errors. rewrite H.
  split.
  - destruct (BookingForm.field_errors form); reflexivity.
  - apply in_or_app. right. now left.
Qed.

(** A request whose form does not validate creates nothing. *)
Lemma create_booking_invalid_form (today : date) (db : DB)
    (user : option User) (room_id : Z) (form : BookingForm.data) :
  BookingForm.is_valid today form = false ->
  snd (Views.create_booking today db user room_id (Some form)) = db
  /\ forall u room,
      user = Some u ->
      get_active_room db room_id = Some room ->
      fst (Views.create_booking today db user room_id (Some form))
      = Render Views.booking_template (BookingForm.errors today form).
Proof.
  intros Hv. unfold Views.create_booking, Views.create_booking_check.
  split.
  - destruct user; [|reflexivity].
    destruct (get_active_room db room_id); [|reflexivity].
    now rewrite Hv.
  - intros u room -> ->. now rewrite Hv.
Qed.

(** C10. A booking request whose stay is longer than 365 nights fails
    [BookingForm.clean] with a validation error, the form is invalid, and
    [create_booking] re-renders the form with the errors and creates no
    booking; when check-in is not in the past the error is the stay-length
    one. *)
Theorem stay_length_cap (today : date) (db : DB) (user : option User)
    (room_id : Z) (form : BookingForm.data) (ci co : date) :
  BookingForm.check_in form = Some ci ->
  BookingForm.check_out form = Some co ->
  co - ci > 365 ->
  (exists msg,
      BookingForm.clean today form = Some msg
      /\ In msg (BookingForm.errors today form)
      /\ (today <= ci -> msg = "Booking period cannot exceed 1 year."))
  /\ BookingForm.is_valid today form = false
  /\ snd (Views.create_booking today db user room_id (Some form)) = db
  /\ (forall u room,
         user = Some u ->
         get_active_room db room_id = Some room ->
         fst (Views.create_booking today db user room_id (Some form))
         = Render Views.booking_template (BookingForm.errors today form)).
Proof.
  intros Hci Hco Hlen.
  assert (exists msg,
             BookingForm.clean today form = Some msg
             /\ (today <= ci -> msg = "Booking period cannot exceed 1 year."))
    as (msg & Hclean & Hmsg).
  { unfold BookingForm.clean. rewrite Hci, Hco.
    destruct (co <=? ci) eqn:E1; [apply Z.leb_le in E1; lia|].
    destruct (ci <? today) eqn:E2.
    - apply Z.ltb_lt in E2. eexists. split; [reflexivity | lia].
    - destruct (co - ci >? 365) eqn:E3.
      + eexists. split; reflexivity.
      + rewrite Z.gtb_ltb in E3. apply Z.ltb_ge in E3. lia. }
  destruct (is_valid_false_of_clean today form msg Hclean) as [Hv Hin].
  split; [exists msg; auto|].
  split; [exact Hv|].
  apply create_booking_invalid_form. exact Hv.
Qed.

(** A 366-night stay of room 101 asked for on 2024-05-01. *)
Lemma stay_length_cap_witness :
  let form := BookingForm.mk (Some 739038) (Some 739404) (Some 2) in
  (exists msg,
      BookingForm.clean 739007 form = Some msg
      /\ In msg (BookingForm.errors 739007 form)
      /\ (739007 <= 739038 -> msg = "Booking period cannot exceed 1 year."))
  /\ BookingForm.is_valid 739007 form = false
  /\ snd (Views.create_booking 739007 hotel (Some guest) 1 (Some form))
     = hotel
  /\ (forall u room,
         Some guest = Some u ->
         get_active_room hotel 1 = Some room ->
         fst (Views.create_booking 739007 hotel (Some guest) 1 (Some form))
         = Render Views.booking_template (BookingForm.errors 739007 form)).
Proof.
  intros form.
  apply (stay_length_cap 739007 hotel (Some guest) 1 form 739038 739404).
  - reflexivity.
  - reflexivity.
  - lia.
Defined.

(** The cap is inclusive: 365 nights pass [clean]. *)
Example stay_of_365_nights_is_valid :
  BookingForm.is_valid 739007
    (BookingForm.mk (Some 739038) (Some 739403) (Some 2)) = true.
Proof. reflexivity. Qed.

(** ** Pricing a stay *)

Lemma is_valid_fields (today ci co n : Z) :
  BookingForm.is_valid today (BookingForm.mk (Some ci) (Some co) (Some n))
  = true ->
  ci < co /\ today <= ci /\ co - ci <= 365 /\ 1 <= n <= 8.
Proof.
  unfold BookingForm.is_valid, BookingForm.errors, BookingForm.field_errors.
  simpl BookingForm.required. simpl app.
  destruct (BookingForm.clean today _) eqn:Hc.
  - destruct ((n <? 1) || (n >? 8)); simpl; discriminate.
  - apply clean_accepts_iff in Hc.
    destruct (n <? 1) eqn:E1; [discriminate|].
    destruct (n >? 8) eqn:E2; [discriminate|]. intros _.
    apply Z.ltb_ge in E1. rewrite Z.gtb_ltb in E2. apply Z.ltb_ge in E2. lia.
Qed.

(** The request that passes every check of [create_booking]. *)
Lemma create_booking_check_passes (today : date) (db : DB) (u : User)
    (room_id : Z) (room : Room.t) (T : RoomType.t) (ci co n : Z) :
  get_active_room db room_id = Some room ->
  get_room_type db (Room.room_type_id room) = Some T ->
  BookingForm.is_valid today (BookingForm.mk (Some ci) (Some co) (Some n))
  = true ->
  n <= RoomType.capacity T ->
  Views.overlap db room ci co = false ->
  Views.create_booking_check today db (Some u) room_id
    (Some (BookingForm.mk (Some ci) (Some co) (Some n)))
  = inr (Views.mkChecked u room T ci co n).
Proof.
  intros Hroom Htype Hvalid Hcap Hover. unfold Views.create_booking_check.
  rewrite Hroom, Hvalid. simpl. rewrite Htype, Hover.
  destruct (n >? RoomType.capacity T) eqn:E; [|reflexivity].
  apply Z.gtb_gt in E. lia.
Qed.

(** C3, as the code has it. The committed [total_price] is the number of
    nights [check_out - check_in] (the checkout day is not counted) times
    one nightly rate, the quote of the room type on the day the booking is
    made: the seasonal rate containing today's date, otherwise the base
    price. *)
Theorem total_price_is_nights_times_todays_rate (today : date) (db : DB)
    (u : User) (room_id : Z) (room : Room.t) (T : RoomType.t) (ci co n : Z) :
  get_active_room db room_id = Some room ->
  get_room_type db (Room.room_type_id room) = Some T ->
  BookingForm.is_valid today (BookingForm.mk (Some ci) (Some co) (Some n))
  = true ->
  n <= RoomType.capacity T ->
  Views.overlap db room ci co = false ->
  ci < co
  /\ Views.create_booking today db (Some u) room_id
       (Some (BookingForm.mk (Some ci) (Some co) (Some n)))
     = (Redirect "booking_confirm"
          (Some "Booking created! Proceed to payment."),
        with_bookings db
          (bookings db
           ++ [Booking.mk (fresh_pk (bookings db)) (Some (user_id u))
                 (Room.id room) ci co n Booking.Pending
                 ((co - ci) * Views.current_price db T today)])).
Proof.
  intros Hroom Htype Hvalid Hcap Hover.
  split; [apply (is_valid_fields today ci co n Hvalid)|].
  unfold Views.create_booking.
  now rewrite (create_booking_check_passes today db u room_id room T ci co n).
Qed.

(** Booked on 2024-11-01, a stay of the suite from 12-21 to 12-23, inside
    the holiday window. *)
Lemma total_price_is_nights_times_todays_rate_witness :
  739241 < 739243
  /\ Views.create_booking 739191 hotel (Some guest) 3
       (Some (BookingForm.mk (Some 739241) (Some 739243) (Some 2)))
     = (Redirect "booking_confirm"
          (Some "Booking created! Proceed to payment."),
        with_bookings hotel
          (bookings hotel
           ++ [Booking.mk (fresh_pk (bookings hotel)) (Some (user_id guest))
                 (Room.id room_201) 739241 739243 2 Booking.Pending
                 ((739243 - 739241)
                  * Views.current_price hotel type_suite 739191)])).
Proof.
  apply (total_price_is_nights_times_todays_rate 739191 hotel guest 3
           room_201 type_suite 739241 739243 2).
  - reflexivity.
  - reflexivity.
  - reflexivity.
  - simpl. lia.
  - reflexivity.
Defined.

(** C3 does not hold: booked on 2024-11-01, before the holiday window
    opens, a two-night stay lying inside the window priced 5000.00 is
    committed at twice the base price 3500.00, not at the sum of the
    nightly quotes of the two stayed nights. *)
Lemma total_price_ignores_stay_dates :
  spec_price_stay hotel type_suite 739241 739243 = 1000000
  /\ map Booking.total_price
       (bookings
          (snd (Views.create_booking 739191 hotel (Some guest) 3
                  (Some (BookingForm.mk (Some 739241) (Some 739243)
                           (Some 2))))))
     = [700000]
  /\ map Booking.total_price
       (bookings
          (snd (Views.create_booking 739191 hotel (Some guest) 3
                  (Some (BookingForm.mk (Some 739241) (Some 739243)
                           (Some 2))))))
     <> [spec_price_stay hotel type_suite 739241 739243].
Proof. repeat split; try reflexivity. discriminate. Qed.

(** ** Availability *)

Lemma booked_rooms_In (db : DB) (ci co : date) (r : Room.t) :
  existsb (Z.eqb (Room.id r)) (Views.booked_rooms db ci co) = true
  <-> exists b,
      In b (bookings db)
      /\ blocks [Booking.Confirmed; Booking.CheckedIn] ci co r b.
Proof.
  unfold Views.booked_rooms, blocks. rewrite existsb_exists. split.
  - intros (x & Hx & He). apply Z.eqb_eq in He. apply in_map_iff in Hx.
    destruct Hx as (b & Hb & Hin). apply filter_In in Hin.
    destruct Hin as [Hin Hf]. rewrite !andb_true_iff in Hf.
    destruct Hf as [[Hs Hlt] Hgt]. exists b. split; [exact Hin|].
    rewrite <- status_in_In. apply Z.ltb_lt in Hlt. apply Z.gtb_gt in Hgt.
    repeat split; try assumption; lia.
  - intros (b & Hin & Hroom & Hs & Hlt & Hgt). exists (Booking.room b).
    split; [|apply Z.eqb_eq; lia].
    apply in_map. apply filter_In. split; [exact Hin|].
    rewrite !andb_true_iff. repeat split.
    + now apply status_in_In.
    + now apply Z.ltb_lt.
    + now apply Z.gtb_gt.
Qed.

(** The queryset [available_rooms], condition by condition. *)
Lemma available_rooms_iff (db : DB) (t capacity : Z) (ci co : date)
    (r : Room.t) :
  In r (Views.available_rooms db (Parsed t) capacity ci co)
  <-> In r (rooms db)
      /\ Room.is_active r = true
      /\ Room.status r = Room.Available
      /\ Room.room_type_id r = t
      /\ (exists T, get_room_type db (Room.room_type_id r) = Some T
                    /\ RoomType.capacity T >= capacity)
      /\ (forall b, In b (bookings db) ->
                    ~ blocks [Booking.Confirmed; Booking.CheckedIn] ci co r b).
Proof.
  unfold Views.available_rooms. rewrite filter_In, !andb_true_iff.
  rewrite room_status_eqb_eq, negb_true_iff. simpl Views.room_type_matches.
  rewrite Z.eqb_eq. unfold Views.capacity_gte.
  assert (existsb (Z.eqb (Room.id r)) (Views.booked_rooms db ci co) = false
          <-> forall b, In b (bookings db) ->
                ~ blocks [Booking.Confirmed; Booking.CheckedIn] ci co r b)
    as ->.
  { rewrite <- not_true_iff_false, booked_rooms_In. split.
    - intros H b Hin Hb. apply H. now exists b.
    - intros H (b & Hin & Hb). exact (H b Hin Hb). }
  destruct (get_room_type db (Room.room_type_id r)) as [T|].
  - rewrite Z.geb_le. split.
    + intros (Hin & (((Ha & Hs) & Ht) & Hc) & Hb).
      repeat split; try assumption. exists T. split; [reflexivity | lia].
    + intros (Hin & Ha & Hs & Ht & (T' & HT & Hc) & Hb).
      inversion HT; subst T'. repeat split; try assumption. lia.
  - split.
    + intros (_ & ((_ & H) & _)). discriminate.
    + intros (_ & _ & _ & _ & (T' & HT & _) & _). discriminate.
Qed.

(** C2, as the code has it. A well-formed query with [check_in < check_out],
    check-in not in the past, and a room type and capacity within the
    database's integer range is answered with the number of rooms of the
    queryset and the number of nights.  Every room of the queryset is
    active, has room status [available], is of the queried room type, has
    room-type capacity at least [capacity], and has no confirmed or
    checked_in booking overlapping [[check_in, check_out)]; and every room
    that is active, has room status [available], is of the queried type,
    has that capacity, and has no pending, confirmed or checked_in booking
    overlapping the interval is in the queryset. *)
Theorem availability_query (today : date) (db : DB) (t capacity : Z)
    (ci co : date) :
  ci < co ->
  today <= ci ->
  fits_int64 t = true ->
  fits_int64 capacity = true ->
  let found := Views.available_rooms db (Parsed t) capacity ci co in
  Views.check_availability today db
    (Some (Views.mkAvailabilityPost (Parsed ci) (Parsed co) (Parsed t)
             (Parsed capacity)))
  = JsonResponse
      (JsonAvailability (Z.of_nat (List.length found) >? 0)
         (Z.of_nat (List.length found)) (co - ci)) 200
  /\ (forall r,
         In r found ->
         In r (rooms db)
         /\ Room.is_active r = true
         /\ Room.status r = Room.Available
         /\ Room.room_type_id r = t
         /\ (exists T, get_room_type db (Room.room_type_id r) = Some T
                       /\ RoomType.capacity T >= capacity)
         /\ (forall b, In b (bookings db) ->
               ~ blocks [Booking.Confirmed; Booking.CheckedIn] ci co r b))
  /\ (forall r,
         In r (rooms db) ->
         Room.is_active r = true ->
         Room.status r = Room.Available ->
         Room.room_type_id r = t ->
         (exists T, get_room_type db (Room.room_type_id r) = Some T
                    /\ RoomType.capacity T >= capacity) ->
         (forall b, In b (bookings db) ->
            ~ blocks [Booking.Pending; Booking.Confirmed; Booking.CheckedIn]
                ci co r b) ->
         In r found).
Proof.
  intros Hlt Htoday Ht Hcap found. split; [|split].
  - unfold Views.check_availability. simpl.
    destruct (ci >=? co) eqn:E1; [apply Z.geb_le in E1; lia|].
    destruct (ci <? today) eqn:E2; [apply Z.ltb_lt in E2; lia|].
    rewrite Ht, Hcap. reflexivity.
  - intros r Hr. subst found. now apply available_rooms_iff in Hr.
  - intros r Hin Ha Hs Hty HT Hfree. subst found.
    apply available_rooms_iff. repeat split; try assumption.
    intros b Hb (Hroom & Hst & Hover). apply (Hfree b Hb).
    split; [exact Hroom|]. split; [|exact Hover].
    simpl in Hst |- *. tauto.
Qed.

(** Asked on 2024-05-01 for 06-03 to 06-05, double rooms for two, with room
    101 confirmed until 06-03, a cancelled booking of room 101 inside the
    stay, and the suite confirmed for the same nights. *)
Lemma availability_query_witness :
  let db :=
    hotel_with
      [Booking.mk 1 (Some 7) 1 739039 739040 2 Booking.Confirmed 200000;
       Booking.mk 2 (Some 8) 1 739040 739041 1 Booking.Cancelled 200000;
       Booking.mk 3 (Some 8) 3 739040 739042 2 Booking.Confirmed 700000] in
  let found := Views.available_rooms db (Parsed 1) 2 739040 739042 in
  Views.check_availability 739007 db
    (Some (Views.mkAvailabilityPost (Parsed 739040) (Parsed 739042)
             (Parsed 1) (Parsed 2)))
  = JsonResponse
      (JsonAvailability (Z.of_nat (List.length found) >? 0)
         (Z.of_nat (List.length found)) (739042 - 739040)) 200
  /\ (forall r,
         In r found ->
         In r (rooms db)
         /\ Room.is_active r = true
         /\ Room.status r = Room.Available
         /\ Room.room_type_id r = 1
         /\ (exists T, get_room_type db (Room.room_type_id r) = Some T
                       /\ RoomType.capacity T >= 2)
         /\ (forall b, In b (bookings db) ->
               ~ blocks [Booking.Confirmed; Booking.CheckedIn]
                   739040 739042 r b))
  /\ (forall r,
         In r (rooms db) ->
         Room.is_active r = true ->
         Room.status r = Room.Available ->
         Room.room_type_id r = 1 ->
         (exists T, get_room_type db (Room.room_type_id r) = Some T
                    /\ RoomType.capacity T >= 2) ->
         (forall b, In b (bookings db) ->
            ~ blocks [Booking.Pending; Booking.Confirmed; Booking.CheckedIn]
                739040 739042 r b) ->
         In r found).
Proof.
  intros db.
  apply (availability_query 739007 db 1 2 739040 739042).
  - lia.
  - lia.
  - reflexivity.
  - reflexivity.
Defined.

(** C2 does not hold: room 102 is active, of the queried type, large
    enough and free of bookings, and the availability check leaves it out
    because its room status is [maintenance]. *)
Lemma availability_excludes_maintenance :
  In room_102 (rooms hotel)
  /\ Room.is_active room_102 = true
  /\ Room.room_type_id room_102 = 1
  /\ Views.capacity_gte hotel 2 room_102 = true
  /\ bookings hotel = []
  /\ Views.available_rooms hotel (Parsed 1) 2 739038 739041 = [room_101]
  /\ ~ In room_102 (Views.available_rooms hotel (Parsed 1) 2 739038 739041)
  /\ Views.check_availability 739007 hotel
       (Some (Views.mkAvailabilityPost (Parsed 739038) (Parsed 739041)
                (Parsed 1) (Parsed 2)))
     = JsonResponse (JsonAvailability true 1 3) 200.
Proof.
  repeat split; try reflexivity.
  - simpl. auto.
  - simpl. intros [H|[]]. discriminate.
Qed.

(** ** Committing a booking *)

Lemma overlap_false_iff (db : DB) (room : Room.t) (ci co : date) :
  Views.overlap db room ci co = false
  <-> forall b, In b (bookings db) ->
        ~ blocks [Booking.Confirmed; Booking.CheckedIn] ci co room b.
Proof.
  unfold Views.overlap, blocks.
  rewrite <- not_true_iff_false, existsb_exists. split.
  - intros H b Hin (Hr & Hs & Hlt & Hgt). apply H. exists b.
    split; [exact Hin|]. rewrite !andb_true_iff. repeat split.
    + now apply Z.eqb_eq.
    + now apply status_in_In.
    + now apply Z.ltb_lt.
    + now apply Z.gtb_gt.
  - intros H (b & Hin & Hf). rewrite !andb_true_iff in Hf.
    destruct Hf as [[[Hr Hs] Hlt] Hgt]. apply (H b Hin).
    apply Z.eqb_eq in Hr. apply status_in_In in Hs.
    apply Z.ltb_lt in Hlt. apply Z.gtb_gt in Hgt. auto.
Qed.

(** A pending row is invisible to the checks of [create_booking]: the
    overlap query lists confirmed and checked_in bookings only. *)
Lemma overlap_ignores_pending (db : DB) (room : Room.t) (ci co : date)
    (p : Booking.t) :
  Booking.status p = Booking.Pending ->
  Views.overlap (with_bookings db (bookings db ++ [p])) room ci co
  = Views.overlap db room ci co.
Proof.
  intros Hp. unfold Views.overlap. simpl. rewrite existsb_app. simpl.
  rewrite Hp. simpl. rewrite andb_false_r. simpl.
  now rewrite !orb_false_r.
Qed.

Lemma check_ignores_pending (today : date) (db : DB) (user : option User)
    (room_id : Z) (post : option BookingForm.data) (p : Booking.t) :
  Booking.status p = Booking.Pending ->
  Views.create_booking_check today (with_bookings db (bookings db ++ [p]))
    user room_id post
  = Views.create_booking_check today db user room_id post.
Proof.
  intros Hp. unfold Views.create_booking_check, get_active_room,
    get_room_type. simpl.
  destruct user as [u|]; [|reflexivity].
  destruct (find _ (rooms db)) as [room|]; [|reflexivity].
  destruct post as [form|]; [|reflexivity].
  destruct (BookingForm.is_valid today form); [|reflexivity].
  destruct form as [[ci|] [co|] [n|]]; simpl; try reflexivity.
  destruct (find _ (room_types db)) as [T|]; [|reflexivity].
  destruct (n >? RoomType.capacity T); [reflexivity|].
  now rewrite (overlap_ignores_pending db room ci co p Hp).
Qed.

(** Two reservation requests served side by side leave what serving them
    one after the other leaves, in the order of their inserts: neither
    request's check can see the row the other inserts, because that row is
    pending. *)
Lemma booking_requests_serialize (today : date) (db : DB)
    (u0 u1 : option User) (r0 r1 : Z) (p0 p1 : option BookingForm.data) :
  let ws := [Waiting (BookingRequest u0 r0 p0);
             Waiting (BookingRequest u1 r1 p1)] in
  run today [0; 1; 0; 1]%nat ws db = run today [0; 0; 1; 1]%nat ws db
  /\ run today [1; 0; 0; 1]%nat ws db = run today [0; 0; 1; 1]%nat ws db
  /\ run today [0; 1; 1; 0]%nat ws db = run today [1; 1; 0; 0]%nat ws db
  /\ run today [1; 0; 1; 0]%nat ws db = run today [1; 1; 0; 0]%nat ws db.
Proof.
  intros ws. subst ws. cbn [run nth_error set_nth step].
  destruct (Views.create_booking_check today db u0 r0 p0) as [e0|c0] eqn:E0;
    destruct (Views.create_booking_check today db u1 r1 p1) as [e1|c1] eqn:E1;
    cbn [run nth_error set_nth step Views.create_booking_insert];
    rewrite ?E0, ?E1;
    cbn [run nth_error set_nth step Views.create_booking_insert];
    rewrite ?check_ignores_pending by reflexivity;
    rewrite ?E0, ?E1;
    cbn [run nth_error set_nth step Views.create_booking_insert];
    repeat split; reflexivity.
Qed.

(** C9. Two guests ask for room 101 at the same time, for stays that
    intersect.  Whichever way the checks and inserts of the two requests
    are scheduled, one after the other or interleaved, both requests are
    answered with the redirect of a created booking, and the table ends
    with two pending bookings of the room that [Booking.is_overlapping]
    reports as overlapping each other. *)
Theorem overlapping_requests_commit_under_every_schedule :
  Forall
    (fun schedule =>
       exists x y,
         run 739007 schedule [Waiting request_a; Waiting request_b] hotel
         = ([Done created; Done created], hotel_with [x; y])
         /\ Booking.room x = Booking.room y
         /\ Booking.status x = Booking.Pending
         /\ Booking.status y = Booking.Pending
         /\ Booking.check_in x < Booking.check_out y
         /\ Booking.check_in y < Booking.check_out x
         /\ Booking.is_overlapping [x; y] x = true
         /\ Booking.is_overlapping [x; y] y = true)
    schedules_of_two.
Proof.
  unfold schedules_of_two.
  repeat constructor; eexists; eexists; (split; [reflexivity|]);
    repeat split.
Qed.

(** C1. Room 101 has a pending booking for 2024-06-01 to 06-04; a second
    guest asks for 06-02 to 06-03.  The overlap query of [create_booking]
    looks at confirmed and checked_in bookings only, so the request is
    committed, and in the resulting table [Booking.is_overlapping] reports
    each of the two pending bookings as overlapping. *)
Theorem create_booking_overlaps_pending :
  Views.create_booking 739007 (hotel_with [booking_a]) (Some other_guest) 1
    (Some (BookingForm.mk (Some 739039) (Some 739040) (Some 1)))
  = (created, hotel_with [booking_a; booking_b])
  /\ Booking.is_overlapping [booking_a; booking_b] booking_a = true
  /\ Booking.is_overlapping [booking_a; booking_b] booking_b = true
  /\ blocks [Booking.Pending; Booking.Confirmed; Booking.CheckedIn]
       (Booking.check_in booking_b) (Booking.check_out booking_b)
       room_101 booking_a.
Proof.
  repeat split; try reflexivity.
  simpl. auto.
Qed.

(** * Further properties of the code *)

(** ** models.py *)

(** A booking that still holds its room. *)
Lemma active_status_iff (s : Booking.Status) :
  Booking.status_in s [Booking.Pending; Booking.Confirmed; Booking.CheckedIn]
  = true
  <-> s = Booking.Pending \/ s = Booking.Confirmed \/ s = Booking.CheckedIn.
Proof. rewrite status_in_In. simpl. intuition congruence. Qed.

Lemma overlaps_row_iff (self b : Booking.t) :
  Booking.overlaps_row self b = true
  <-> Booking.room b = Booking.room self
      /\ In (Booking.status b)
           [Booking.Pending; Booking.Confirmed; Booking.CheckedIn]
      /\ Booking.check_in b < Booking.check_out self
      /\ Booking.check_in self < Booking.check_out b
      /\ Booking.pk b <> Booking.pk self.
Proof.
  unfold Booking.overlaps_row.
  rewrite !andb_true_iff, negb_true_iff, Z.eqb_eq, Z.eqb_neq, Z.ltb_lt,
    Z.gtb_gt, status_in_In.
  intuition lia.
Qed.

(** X1. [is_overlapping] treats stays as half-open intervals: a booking is
    reported free of overlap exactly when every other booking of the same
    room that is pending, confirmed or checked_in ends on or before its
    check-in day or starts on or after its check-out day. *)
Theorem is_overlapping_half_open (objects : list Booking.t)
    (self : Booking.t) :
  Booking.is_overlapping objects self = false
  <-> forall b,
      In b objects ->
      Booking.room b = Booking.room self ->
      Booking.pk b <> Booking.pk self ->
      In (Booking.status b)
        [Booking.Pending; Booking.Confirmed; Booking.CheckedIn] ->
      Booking.check_out b <= Booking.check_in self
      \/ Booking.check_out self <= Booking.check_in b.
Proof.
  unfold Booking.is_overlapping.
  rewrite <- not_true_iff_false, existsb_exists. split.
  - intros H b Hin Hroom Hpk Hs.
    destruct (Z_le_gt_dec (Booking.check_out b) (Booking.check_in self))
      as [Hle|Hgt]; [now left|].
    destruct (Z_le_gt_dec (Booking.check_out self) (Booking.check_in b))
      as [Hle'|Hgt']; [now right|].
    exfalso. apply H. exists b. split; [exact Hin|].
    apply overlaps_row_iff. repeat split; try assumption; lia.
  - intros H (b & Hin & Hb). apply overlaps_row_iff in Hb.
    destruct Hb as (Hroom & Hs & Hlt & Hgt & Hpk).
    destruct (H b Hin Hroom Hpk Hs); lia.
Qed.

(** X2. Overlap is mutual: when two distinct bookings of one room both
    hold the room (pending, confirmed or checked_in) and their stays
    intersect, [is_overlapping] reports each of them. *)
Theorem is_overlapping_mutual (objects : list Booking.t) (a b : Booking.t) :
  In a objects ->
  In b objects ->
  Booking.room a = Booking.room b ->
  Booking.pk a <> Booking.pk b ->
  In (Booking.status a)
    [Booking.Pending; Booking.Confirmed; Booking.CheckedIn] ->
  In (Booking.status b)
    [Booking.Pending; Booking.Confirmed; Booking.CheckedIn] ->
  Booking.check_in a < Booking.check_out b ->
  Booking.check_in b < Booking.check_out a ->
  Booking.is_overlapping objects a = true
  /\ Booking.is_overlapping objects b = true.
Proof.
  intros Ha Hb Hroom Hpk Hsa Hsb Hab Hba. unfold Booking.is_overlapping.
  split; apply existsb_exists.
  - exists b. split; [exact Hb|]. apply overlaps_row_iff.
    repeat split; try assumption; auto.
  - exists a. split; [exact Ha|]. apply overlaps_row_iff.
    repeat split; try assumption; auto.
Qed.

Lemma is_overlapping_mutual_witness :
  let a := Booking.mk 1 (Some 7) 1 739038 739041 2 Booking.Confirmed 600000 in
  let b := Booking.mk 2 (Some 8) 1 739040 739043 1 Booking.Pending 600000 in
  Booking.is_overlapping [a; b] a = true
  /\ Booking.is_overlapping [a; b] b = true.
Proof.
  intros a b. apply (is_overlapping_mutual [a; b] a b); simpl; auto; lia.
Defined.

(** X3. The cancellation window only closes: a booking that can be
    cancelled today could be cancelled on every earlier day, so once
    [can_cancel] is false for a pending or confirmed booking it stays
    false on every later day. *)
Theorem can_cancel_window_closes (today earlier : date) (b : Booking.t) :
  Booking.can_cancel today b = true ->
  earlier <= today ->
  Booking.can_cancel earlier b = true.
Proof.
  unfold Booking.can_cancel.
  destruct (Booking.status_in (Booking.status b)
              [Booking.CheckedIn; Booking.CheckedOut; Booking.Cancelled]);
    [discriminate|].
  rewrite !Z.gtb_gt. lia.
Qed.

Lemma can_cancel_window_closes_witness :
  Booking.can_cancel 739030 (stay_tomorrow Booking.Pending) = true.
Proof.
  apply (can_cancel_window_closes 739036 739030
           (stay_tomorrow Booking.Pending)).
  - reflexivity.
  - lia.
Defined.

(** X6. [is_valid_now] turns a code down exactly when it is inactive, today
    is outside [valid_from .. valid_to], or [max_uses] is a non-zero number
    that [times_used] has reached. *)
Theorem promo_rejected_iff (today : date) (p : PromoCode.t) :
  PromoCode.is_valid_now today p = false
  <-> PromoCode.is_active p = false
      \/ today < PromoCode.valid_from p
      \/ PromoCode.valid_to p < today
      \/ exists n, PromoCode.max_uses p = Some n
                   /\ n <> 0
                   /\ n <= PromoCode.times_used p.
Proof.
  unfold PromoCode.is_valid_now.
  destruct (PromoCode.is_active p); simpl; [|intuition].
  destruct (PromoCode.valid_from p <=? today) eqn:E1; simpl;
    [apply Z.leb_le in E1 | apply Z.leb_gt in E1; intuition].
  destruct (today <=? PromoCode.valid_to p) eqn:E2; simpl;
    [apply Z.leb_le in E2 | apply Z.leb_gt in E2; intuition].
  destruct (PromoCode.max_uses p) as [n|].
  - destruct (n =? 0) eqn:E3; simpl;
      [apply Z.eqb_eq in E3 | apply Z.eqb_neq in E3].
    + split; [discriminate|].
      intros [H|[H|[H|(m & Hm & Hn & _)]]]; try discriminate; try lia.
      inversion Hm; subst. contradiction.
    + destruct (PromoCode.times_used p >=? n) eqn:E4.
      * apply Z.geb_le in E4. split; [|reflexivity]. intros _.
        right. right. right. exists n. auto.
      * rewrite Z.geb_leb in E4. apply Z.leb_gt in E4.
        split; [discriminate|].
        intros [H|[H|[H|(m & Hm & _ & Hle)]]]; try discriminate; try lia.
        inversion Hm; subst. lia.
  - split; [discriminate|].
    intros [H|[H|[H|(m & Hm & _)]]]; try discriminate; lia.
Qed.

(** ** forms.py *)


(** ** views.py: creating a booking *)

Lemma app_one_neq {A} (l : list A) (x : A) : (l ++ [x])%list <> l.
Proof.
  intros H. apply (f_equal (@List.length A)) in H.
  rewrite length_app in H. simpl in H. lia.
Qed.

Lemma fresh_pk_gt (bs : list Booking.t) (x : Booking.t) :
  In x bs -> Booking.pk x < fresh_pk bs.
Proof.
  unfold fresh_pk. induction bs as [|y tl IH]; cbn [map fold_right In];
    [tauto|].
  intros [->|H]; [lia|]. specialize (IH H). lia.
Qed.

Lemma get_booking_app_old (db : DB) (b x : Booking.t) (k : Z) :
  get_booking db k = Some x ->
  get_booking (with_bookings db (bookings db ++ [b])) k = Some x.
Proof.
  unfold get_booking. simpl. generalize (bookings db).
  induction l as [|y tl IH]; simpl; [discriminate|].
  destruct (Booking.pk y =? k); [tauto | exact IH].
Qed.

Lemma get_booking_app_new (db : DB) (b : Booking.t) :
  Booking.pk b = fresh_pk (bookings db) ->
  get_booking (with_bookings db (bookings db ++ [b])) (Booking.pk b) = Some b.
Proof.
  intros Hpk. unfold get_booking. simpl.
  assert (forall x, In x (bookings db) -> Booking.pk x <> Booking.pk b) as H.
  { intros x Hx. apply fresh_pk_gt in Hx. lia. }
  revert H. generalize (bookings db).
  induction l as [|y tl IH]; simpl; intros H.
  - now rewrite Z.eqb_refl.
  - destruct (Booking.pk y =? Booking.pk b) eqn:E.
    + apply Z.eqb_eq in E. exfalso. apply (H y); auto.
    + apply IH. intros x Hx. apply H. now right.
Qed.

(** The booking [create_booking] inserts for checked locals [c]. *)
Lemma create_booking_insert_row (today : date) (db : DB) (c : Views.Checked)
    (b : Booking.t) :
  bookings (snd (Views.create_booking_insert today db c))
  = (bookings db ++ [b])%list ->
  b = Booking.mk (fresh_pk (bookings db)) (Some (user_id (Views.c_user c)))
        (Room.id (Views.c_room c)) (Views.c_check_in c)
        (Views.c_check_out c) (Views.c_num_guests c) Booking.Pending
        ((Views.c_check_out c - Views.c_check_in c)
         * Views.current_price db (Views.c_room_type c) today).
Proof.
  unfold Views.create_booking_insert. simpl. intros H.
  apply app_inj_tail in H. destruct H as [_ H]. now symmetry.
Qed.

(** Everything [create_booking] has established when it reaches the
    insert. *)
Lemma create_booking_check_inr_full (today : date) (db : DB)
    (user : option User) (room_id : Z) (post : option BookingForm.data)
    (c : Views.Checked) :
  Views.create_booking_check today db user room_id post = inr c ->
  user = Some (Views.c_user c)
  /\ get_active_room db room_id = Some (Views.c_room c)
  /\ get_room_type db (Room.room_type_id (Views.c_room c))
     = Some (Views.c_room_type c)
  /\ post = Some (BookingForm.mk (Some (Views.c_check_in c))
                    (Some (Views.c_check_out c))
                    (Some (Views.c_num_guests c)))
  /\ BookingForm.is_valid today
       (BookingForm.mk (Some (Views.c_check_in c))
          (Some (Views.c_check_out c)) (Some (Views.c_num_guests c))) = true
  /\ Views.c_num_guests c <= RoomType.capacity (Views.c_room_type c)
  /\ Views.overlap db (Views.c_room c) (Views.c_check_in c)
       (Views.c_check_out c) = false.
Proof.
  unfold Views.create_booking_check.
  destruct user as [u|]; [|discriminate].
  destruct (get_active_room db room_id) as [room|]; [|discriminate].
  destruct post as [form|]; [|discriminate].
  destruct (BookingForm.is_valid today form) eqn:Hv; [|discriminate].
  destruct form as [[ci|] [co|] [n|]]; simpl; try discriminate.
  destruct (get_room_type db (Room.room_type_id room)) as [T|] eqn:HT;
    [|discriminate].
  destruct (n >? RoomType.capacity T) eqn:Ec; [discriminate|].
  destruct (Views.overlap db room ci co) eqn:Eo; [discriminate|].
  intros H. inversion H; subst c; simpl.
  rewrite Z.gtb_ltb in Ec. apply Z.ltb_ge in Ec.
  repeat split; try assumption; try reflexivity.
Qed.

(** X8. [create_booking] adds a booking exactly when the user is logged in,
    the room exists and is active, the form validates, the guests fit the
    room type's capacity, and no confirmed or checked_in booking of the
    room overlaps the stay; in every other case the bookings table is left
    as it was. *)
Theorem create_booking_commits_iff (today : date) (db : DB)
    (user : option User) (room_id : Z) (post : option BookingForm.data) :
  bookings (snd (Views.create_booking today db user room_id post))
  <> bookings db
  <-> exists u room T ci co n,
      user = Some u
      /\ get_active_room db room_id = Some room
      /\ get_room_type db (Room.room_type_id room) = Some T
      /\ post = Some (BookingForm.mk (Some ci) (Some co) (Some n))
      /\ BookingForm.is_valid today
           (BookingForm.mk (Some ci) (Some co) (Some n)) = true
      /\ n <= RoomType.capacity T
      /\ Views.overlap db room ci co = false.
Proof.
  split.
  - unfold Views.create_booking.
    destruct (Views.create_booking_check today db user room_id post)
      as [response|c] eqn:Hc; simpl; [congruence|]. intros _.
    destruct (create_booking_check_inr_full _ _ _ _ _ _ Hc)
      as (Hu & Hroom & HT & Hpost & Hv & Hcap & Ho).
    exists (Views.c_user c), (Views.c_room c), (Views.c_room_type c),
      (Views.c_check_in c), (Views.c_check_out c), (Views.c_num_guests c).
    repeat split; assumption.
  - intros (u & room & T & ci & co & n & -> & Hroom & HT & -> & Hv & Hcap
            & Ho).
    unfold Views.create_booking. unfold date in *.
    rewrite (create_booking_check_passes today db u room_id room T ci co n);
      try assumption.
    simpl. apply app_one_neq.
Qed.

(** X9. A request that passes validation and the capacity check is turned
    down with the message that the room is not available, and nothing is
    written, as soon as one confirmed or checked_in booking of the room
    overlaps the requested stay. *)
Theorem create_booking_rejects_overlap (today : date) (db : DB) (u : User)
    (room_id : Z) (room : Room.t) (T : RoomType.t) (ci co n : Z)
    (b : Booking.t) :
  get_active_room db room_id = Some room ->
  get_room_type db (Room.room_type_id room) = Some T ->
  BookingForm.is_valid today (BookingForm.mk (Some ci) (Some co) (Some n))
  = true ->
  n <= RoomType.capacity T ->
  In b (bookings db) ->
  blocks [Booking.Confirmed; Booking.CheckedIn] ci co room b ->
  Views.create_booking today db (Some u) room_id
    (Some (BookingForm.mk (Some ci) (Some co) (Some n)))
  = (Redirect "room_detail" (Some "Room is not available for those dates."),
     db).
Proof.
  intros Hroom HT Hv Hcap Hin Hb.
  unfold Views.create_booking, Views.create_booking_check.
  rewrite Hroom, Hv. simpl. rewrite HT.
  destruct (n >? RoomType.capacity T) eqn:Ec;
    [apply Z.gtb_gt in Ec; lia|].
  destruct (Views.overlap db room ci co) eqn:Eo; [reflexivity|].
  exfalso. exact (proj1 (overlap_false_iff db room ci co) Eo b Hin Hb).
Qed.

(** Room 101 is confirmed for 2024-06-02 to 06-03; a request for 06-01 to
    06-04 is turned down. *)
Lemma create_booking_rejects_overlap_witness :
  let held := Booking.mk 1 (Some 7) 1 739039 739040 2 Booking.Confirmed
                200000 in
  Views.create_booking 739007 (hotel_with [held]) (Some other_guest) 1
    (Some (BookingForm.mk (Some 739038) (Some 739041) (Some 2)))
  = (Redirect "room_detail" (Some "Room is not available for those dates."),
     hotel_with [held]).
Proof.
  intros held.
  apply (create_booking_rejects_overlap 739007 (hotel_with [held])
           other_guest 1 room_101 type_double 739038 739041 2 held).
  - reflexivity.
  - reflexivity.
  - reflexivity.
  - simpl. lia.
  - simpl. auto.
  - unfold blocks. simpl. repeat split; auto; lia.
Defined.

(** X10. The capacity check comes before the overlap query: a valid form
    asking for more guests than the room type holds is turned down with
    the capacity message, whatever bookings the room has, and nothing is
    written. *)
Theorem create_booking_rejects_over_capacity (today : date) (db : DB)
    (u : User) (room_id : Z) (room : Room.t) (T : RoomType.t) (ci co n : Z) :
  get_active_room db room_id = Some room ->
  get_room_type db (Room.room_type_id room) = Some T ->
  BookingForm.is_valid today (BookingForm.mk (Some ci) (Some co) (Some n))
  = true ->
  n > RoomType.capacity T ->
  Views.create_booking today db (Some u) room_id
    (Some (BookingForm.mk (Some ci) (Some co) (Some n)))
  = (Redirect "room_detail"
       (Some ("Room capacity is " ++ str (RoomType.capacity T) ++ " guests.")),
     db).
Proof.
  intros Hroom HT Hv Hcap.
  unfold Views.create_booking, Views.create_booking_check.
  rewrite Hroom, Hv. simpl. rewrite HT.
  apply Z.gtb_gt in Hcap. now rewrite Hcap.
Qed.

Lemma create_booking_rejects_over_capacity_witness :
  Views.create_booking 739007 hotel (Some guest) 1
    (Some (BookingForm.mk (Some 739038) (Some 739041) (Some 3)))
  = (Redirect "room_detail" (Some "Room capacity is 2 guests."), hotel).
Proof.
  apply (create_booking_rejects_over_capacity 739007 hotel guest 1 room_101
           type_double 739038 739041 3).
  - reflexivity.
  - reflexivity.
  - reflexivity.
  - simpl. lia.
Defined.

Lemma get_booking_ext (db db' : DB) (k : Z) :
  bookings db' = bookings db -> get_booking db' k = get_booking db k.
Proof. unfold get_booking. now intros ->. Qed.

(** X11. Whatever [create_booking] inserts is well formed: it is pending,
    owned by the requester, starts today or later, lasts between 1 and 365
    nights, has between 1 and 8 guests and no more than the room type
    holds, is priced at nights times the current rate, and its primary key
    is larger than every key in use. *)
Theorem committed_booking_well_formed (today : date) (db : DB)
    (user : option User) (room_id : Z) (post : option BookingForm.data)
    (b : Booking.t) :
  bookings (snd (Views.create_booking today db user room_id post))
  = (bookings db ++ [b])%list ->
  Booking.status b = Booking.Pending
  /\ (exists u, user = Some u /\ Booking.user b = Some (user_id u))
  /\ today <= Booking.check_in b
  /\ 1 <= Booking.get_num_nights b <= 365
  /\ 1 <= Booking.num_guests b <= 8
  /\ (exists room T,
         get_active_room db room_id = Some room
         /\ Booking.room b = Room.id room
         /\ get_room_type db (Room.room_type_id room) = Some T
         /\ Booking.num_guests b <= RoomType.capacity T
         /\ Booking.total_price b
            = Booking.get_num_nights b * Views.current_price db T today)
  /\ forall x, In x (bookings db) -> Booking.pk x < Booking.pk b.
Proof.
  unfold Views.create_booking.
  destruct (Views.create_booking_check today db user room_id post)
    as [response|c] eqn:Hc; simpl snd.
  - intros H. symmetry in H. exfalso. exact (app_one_neq _ _ H).
  - intros H. apply create_booking_insert_row in H. subst b.
    destruct (create_booking_check_inr_full _ _ _ _ _ _ Hc)
      as (Hu & Hroom & HT & _ & Hv & Hcap & _).
    apply is_valid_fields in Hv. unfold Booking.get_num_nights. simpl.
    split; [reflexivity|].
    split; [exists (Views.c_user c); auto|].
    split; [lia|]. split; [lia|]. split; [lia|].
    split; [exists (Views.c_room c), (Views.c_room_type c); auto|].
    intros x Hx. now apply fresh_pk_gt.
Qed.

Lemma committed_booking_well_formed_witness :
  let b := Booking.mk 1 (Some 7) 1 739038 739041 2 Booking.Pending 600000 in
  Booking.status b = Booking.Pending
  /\ (exists u, Some guest = Some u /\ Booking.user b = Some (user_id u))
  /\ 739007 <= Booking.check_in b
  /\ 1 <= Booking.get_num_nights b <= 365
  /\ 1 <= Booking.num_guests b <= 8
  /\ (exists room T,
         get_active_room hotel 1 = Some room
         /\ Booking.room b = Room.id room
         /\ get_room_type hotel (Room.room_type_id room) = Some T
         /\ Booking.num_guests b <= RoomType.capacity T
         /\ Booking.total_price b
            = Booking.get_num_nights b * Views.current_price hotel T 739007)
  /\ forall x, In x (bookings hotel) -> Booking.pk x < Booking.pk b.
Proof.
  intros b.
  apply (committed_booking_well_formed 739007 hotel (Some guest) 1
           (Some (BookingForm.mk (Some 739038) (Some 739041) (Some 2))) b).
  reflexivity.
Defined.

Lemma current_price_nonneg (db : DB) (T : RoomType.t) (d : date) :
  0 <= RoomType.base_price T ->
  (forall r, In r (rates db) -> 0 <= RoomRate.price r) ->
  0 <= Views.current_price db T d.
Proof.
  intros Hb Hr. unfold Views.current_price.
  destruct (Views.seasonal_rate db T d) as [r|] eqn:E; [|exact Hb].
  apply seasonal_rate_some in E. destruct E as [(Hin & _) _]. now apply Hr.
Qed.

(** X12. [create_booking] keeps [total_price] non-negative: when no base
    price and no seasonal price is negative and every booking on record
    has a non-negative total, so has every booking after the request. *)
Theorem create_booking_keeps_totals_nonneg (today : date) (db : DB)
    (user : option User) (room_id : Z) (post : option BookingForm.data) :
  (forall T, In T (room_types db) -> 0 <= RoomType.base_price T) ->
  (forall r, In r (rates db) -> 0 <= RoomRate.price r) ->
  (forall b, In b (bookings db) -> 0 <= Booking.total_price b) ->
  forall b,
    In b (bookings (snd (Views.create_booking today db user room_id post))) ->
    0 <= Booking.total_price b.
Proof.
  intros Hbase Hrates Hold b. unfold Views.create_booking.
  destruct (Views.create_booking_check today db user room_id post)
    as [response|c] eqn:Hc; simpl; [apply Hold|].
  intros Hin. apply in_app_or in Hin. destruct Hin as [Hin|[<-|[]]];
    [now apply Hold|].
  destruct (create_booking_check_inr_full _ _ _ _ _ _ Hc)
    as (_ & _ & HT & _ & Hv & _ & _).
  apply is_valid_fields in Hv. simpl.
  apply Z.mul_nonneg_nonneg; [lia|].
  apply current_price_nonneg; [|exact Hrates].
  apply Hbase. unfold get_room_type in HT. now apply find_some in HT.
Qed.

Lemma create_booking_keeps_totals_nonneg_witness :
  0 <= Booking.total_price booking_a.
Proof.
  apply (create_booking_keeps_totals_nonneg 739007 hotel (Some guest) 1
           (Some (BookingForm.mk (Some 739038) (Some 739041) (Some 2)))).
  - simpl. intros T [<-|[<-|[]]]; simpl; lia.
  - simpl. intros r [<-|[]]. simpl. lia.
  - simpl. intros b [].
  - simpl. left. reflexivity.
Defined.

(** X13. Insert and lookup: once [create_booking] has inserted a booking
    whose total fits the ten digits of its column,
    [get_object_or_404(Booking, id=...)] finds it under its new primary
    key, and every earlier booking the lookup found is still found under
    its key, unchanged. *)
Theorem created_booking_lookup (today : date) (db : DB)
    (user : option User) (room_id : Z) (post : option BookingForm.data)
    (b : Booking.t) :
  bookings (snd (Views.create_booking today db user room_id post))
  = (bookings db ++ [b])%list ->
  fits_decimal_10_2 (Booking.total_price b) ->
  get_booking (snd (Views.create_booking today db user room_id post))
    (Booking.pk b) = Some b
  /\ forall k x,
      get_booking db k = Some x ->
      get_booking (snd (Views.create_booking today db user room_id post)) k
      = Some x.
Proof.
  intros H _.
  assert (Booking.pk b = fresh_pk (bookings db)) as Hpk.
  { revert H. unfold Views.create_booking.
    destruct (Views.create_booking_check today db user room_id post)
      as [response|c]; simpl snd; intros H.
    - symmetry in H. exfalso. exact (app_one_neq _ _ H).
    - apply create_booking_insert_row in H. now subst b. }
  split.
  - rewrite (get_booking_ext (with_bookings db (bookings db ++ [b])));
      [now apply get_booking_app_new | exact H].
  - intros k x Hx.
    rewrite (get_booking_ext (with_bookings db (bookings db ++ [b])));
      [now apply get_booking_app_old | exact H].
Qed.

Lemma created_booking_lookup_witness :
  get_booking
    (snd (Views.create_booking 739007 (hotel_with [booking_a])
            (Some other_guest) 1
            (Some (BookingForm.mk (Some 739039) (Some 739040) (Some 1)))))
    (Booking.pk booking_b) = Some booking_b
  /\ forall k x,
      get_booking (hotel_with [booking_a]) k = Some x ->
      get_booking
        (snd (Views.create_booking 739007 (hotel_with [booking_a])
                (Some other_guest) 1
                (Some (BookingForm.mk (Some 739039) (Some 739040) (Some 1)))))
        k = Some x.
Proof.
  apply (created_booking_lookup 739007 (hotel_with [booking_a])
           (Some other_guest) 1
           (Some (BookingForm.mk (Some 739039) (Some 739040) (Some 1)))
           booking_b).
  - reflexivity.
  - unfold fits_decimal_10_2. simpl. lia.
Defined.

(** ** views.py: recording a payment *)

Lemma set_status_same (b : Booking.t) :
  Booking.set_status (Booking.status b) b = b.
Proof. now destruct b. Qed.

(** The shape of every answer of [create_payment]: nothing is written, or
    one completed payment with a positive amount is appended and the
    booking is written back, confirmed if it was pending. *)
Lemma create_payment_cases (db : DB) (user : option User) (booking_id : Z)
    (post : option Views.PaymentPost) :
  snd (Views.create_payment db user booking_id post) = db
  \/ exists u b m a,
      user = Some u
      /\ get_booking db booking_id = Some b
      /\ (Views.same_user (Booking.user b) u = true \/ is_staff u = true)
      /\ post = Some (Views.mkPaymentPost (Some m) (Parsed a))
      /\ (0 < a)%Q
      /\ snd (Views.create_payment db user booking_id post)
         = let db1 :=
             with_payments db
               (payments db ++ [Payment.mk booking_id a m Payment.Completed]) in
           if Booking.status_eqb (Booking.status b) Booking.Pending
           then save_booking (Booking.set_status Booking.Confirmed b) db1
           else db1.
Proof.
  unfold Views.create_payment.
  destruct user as [u|]; [|now left].
  destruct (get_booking db booking_id) as [b|] eqn:Hb; [|now left].
  destruct (negb (Views.same_user (Booking.user b) u) && negb (is_staff u))
    eqn:Hauth; [now left|].
  destruct post as [[m a]|]; [|now left]. simpl.
  destruct a as [| |a]; try now left.
  destruct (Qle_bool a 0) eqn:Ea; [now left|].
  destruct m as [m|]; [|now left].
  right. exists u, b, m, a. rewrite (get_booking_pk _ _ _ Hb).
  repeat split.
  - apply andb_false_iff in Hauth.
    destruct Hauth as [H|H]; apply negb_false_iff in H; auto.
  - apply Qnot_le_lt. intros H. apply Qle_bool_iff in H. congruence.
Qed.

(** X14. [create_payment] writes to the database only for a logged-in
    user who owns the booking or is staff, on a POST that names a method
    and an amount converting to a positive number.  For an anonymous user,
    an unknown booking, a user who is neither owner nor staff (for a
    walk-in booking, any user who is not staff), a request that is not a
    POST, a missing method, and an amount that is missing, not a number,
    zero or negative, the database is left as it was. *)
Theorem create_payment_writes_only_if (db : DB) (user : option User)
    (booking_id : Z) (post : option Views.PaymentPost) :
  snd (Views.create_payment db user booking_id post) <> db ->
  exists u b m a,
    user = Some u
    /\ get_booking db booking_id = Some b
    /\ (Booking.user b = Some (user_id u) \/ is_staff u = true)
    /\ post = Some (Views.mkPaymentPost (Some m) (Parsed a))
    /\ (0 < a)%Q.
Proof.
  intros H.
  destruct (create_payment_cases db user booking_id post)
    as [E|(u & b & m & a & Hu & Hb & Hauth & Hpost & Ha & _)];
    [contradiction|].
  exists u, b, m, a. repeat split; try assumption.
  destruct Hauth as [Hs|Hs]; [left | now right].
  unfold Views.same_user in Hs.
  destruct (Booking.user b) as [o|]; [|discriminate].
  apply Z.eqb_eq in Hs. now subst.
Qed.

Lemma create_payment_writes_only_if_witness :
  exists u b m a,
    Some clerk = Some u
    /\ get_booking (hotel_with [booking_a]) 1 = Some b
    /\ (Booking.user b = Some (user_id u) \/ is_staff u = true)
    /\ Some (Views.mkPaymentPost (Some "cash") (Parsed (25 # 1)%Q))
       = Some (Views.mkPaymentPost (Some m) (Parsed a))
    /\ (0 < a)%Q.
Proof.
  apply (create_payment_writes_only_if (hotel_with [booking_a]) (Some clerk)
           1 (Some (Views.mkPaymentPost (Some "cash") (Parsed (25 # 1)%Q)))).
  discriminate.
Defined.

(** X15. [create_payment] touches nothing else: rooms, room types and rates
    are as before; every other booking is as before; the booking paid for
    keeps its room, dates, guests, owner and price, and its status is
    unchanged or goes from pending to confirmed; at most one payment is
    appended, and it is a completed payment for that booking. *)
Theorem create_payment_frame (db : DB) (user : option User)
    (booking_id : Z) (post : option Views.PaymentPost) :
  let db' := snd (Views.create_payment db user booking_id post) in
  room_types db' = room_types db
  /\ rooms db' = rooms db
  /\ rates db' = rates db
  /\ (forall k, k <> booking_id -> get_booking db' k = get_booking db k)
  /\ (forall b,
         get_booking db booking_id = Some b ->
         exists s,
           get_booking db' booking_id = Some (Booking.set_status s b)
           /\ (s = Booking.status b
               \/ (Booking.status b = Booking.Pending
                   /\ s = Booking.Confirmed)))
  /\ exists new,
      payments db' = (payments db ++ new)%list
      /\ (List.length new <= 1)%nat
      /\ forall p, In p new ->
           Payment.booking p = booking_id
           /\ Payment.status p = Payment.Completed.
Proof.
  intros db'. subst db'.
  destruct (create_payment_cases db user booking_id post)
    as [E|(u & b & m & a & Hu & Hb & Hauth & Hpost & Ha & E)].
  - rewrite E. repeat split; try reflexivity.
    + intros b Hb. exists (Booking.status b). rewrite set_status_same. auto.
    + exists []. rewrite app_nil_r. simpl. repeat split; try lia; tauto.
  - rewrite E. clear E. cbv zeta.
    destruct (Booking.status_eqb (Booking.status b) Booking.Pending) eqn:Ep.
    + apply booking_status_eqb_eq in Ep. repeat split; try reflexivity.
      * intros k Hk. rewrite get_booking_save_any.
        rewrite get_booking_with_payments.
        destruct (get_booking db k) as [x|] eqn:Hx; [|reflexivity].
        simpl. apply get_booking_pk in Hx. apply get_booking_pk in Hb.
        destruct (Booking.pk x =? Booking.pk b) eqn:E; [|reflexivity].
        apply Z.eqb_eq in E. lia.
      * intros b0 Hb0. rewrite Hb in Hb0. inversion Hb0; subst b0.
        exists Booking.Confirmed. split; [|now right].
        apply (get_booking_save _ _ b); [exact Hb|].
        exact (get_booking_pk _ _ _ Hb).
      * exists [Payment.mk booking_id a m Payment.Completed].
        simpl. repeat split; try lia;
          destruct H as [<-|[]]; simpl; auto.
    + repeat split; try reflexivity.
      * intros b0 Hb0. rewrite get_booking_with_payments, Hb0.
        exists (Booking.status b0). rewrite set_status_same. auto.
      * exists [Payment.mk booking_id a m Payment.Completed].
        simpl. repeat split; try lia;
          destruct H as [<-|[]]; simpl; auto.
Qed.

(** X16. Booking then paying: after a request that passes every check of
    [create_booking], with a total that fits the ten digits of its column,
    the new booking is pending under the fresh primary key; a POST by the
    same user for that key, with a method and a positive amount of at most
    99999999, records one completed payment for the booking and leaves the
    booking confirmed. *)
Theorem booking_then_payment_confirms (today : date) (db : DB) (u : User)
    (room_id : Z) (room : Room.t) (T : RoomType.t) (ci co n : Z)
    (m : string) (a : Q) :
  get_active_room db room_id = Some room ->
  get_room_type db (Room.room_type_id room) = Some T ->
  BookingForm.is_valid today (BookingForm.mk (Some ci) (Some co) (Some n))
  = true ->
  n <= RoomType.capacity T ->
  Views.overlap db room ci co = false ->
  fits_decimal_10_2 ((co - ci) * Views.current_price db T today) ->
  (0 < a)%Q ->
  (a <= 99999999 # 1)%Q ->
  let k := fresh_pk (bookings db) in
  let db1 := snd (Views.create_booking today db (Some u) room_id
                    (Some (BookingForm.mk (Some ci) (Some co) (Some n)))) in
  let db2 := snd (Views.create_payment db1 (Some u) k
                    (Some (Views.mkPaymentPost (Some m) (Parsed a)))) in
  status_of db1 k = Some Booking.Pending
  /\ status_of db2 k = Some Booking.Confirmed
  /\ exists p,
      payments db2 = (payments db ++ [p])%list
      /\ Payment.booking p = k
      /\ Payment.method p = m
      /\ Payment.status p = Payment.Completed.
Proof.
  intros Hroom HT Hv Hcap Ho _ Ha _ k db1 db2.
  set (b := Booking.mk k (Some (user_id u)) (Room.id room) ci co n
              Booking.Pending ((co - ci) * Views.current_price db T today)).
  assert (db1 = with_bookings db (bookings db ++ [b])) as E1.
  { subst db1. unfold Views.create_booking.
    now rewrite (create_booking_check_passes today db u room_id room T
                   ci co n). }
  assert (get_booking db1 k = Some b) as Hb.
  { rewrite E1. apply (get_booking_app_new db b). reflexivity. }
  assert (Views.same_user (Booking.user b) u = true) as Hsame.
  { simpl. apply Z.eqb_refl. }
  destruct (create_payment_recorded db1 u k b m a Hb (or_introl Hsame) Ha)
    as (_ & Hpay & Hrow).
  unfold status_of. fold db2 in Hpay, Hrow. rewrite Hb, Hrow.
  repeat split. eexists. rewrite Hpay, E1. repeat split.
Qed.

Lemma booking_then_payment_confirms_witness :
  let k := fresh_pk (bookings hotel) in
  let db1 := snd (Views.create_booking 739007 hotel (Some guest) 1
                    (Some (BookingForm.mk (Some 739038) (Some 739041)
                             (Some 2)))) in
  let db2 := snd (Views.create_payment db1 (Some guest) k
                    (Some (Views.mkPaymentPost (Some "cash")
                             (Parsed (100 # 1)%Q)))) in
  status_of db1 k = Some Booking.Pending
  /\ status_of db2 k = Some Booking.Confirmed
  /\ exists p,
      payments db2 = (payments hotel ++ [p])%list
      /\ Payment.booking p = k
      /\ Payment.method p = "cash"
      /\ Payment.status p = Payment.Completed.
Proof.
  apply (booking_then_payment_confirms 739007 hotel guest 1 room_101
           type_double 739038 739041 2 "cash" (100 # 1)%Q).
  - reflexivity.
  - reflexivity.
  - reflexivity.
  - simpl. lia.
  - reflexivity.
  - unfold fits_decimal_10_2. simpl. lia.
  - reflexivity.
  - discriminate.
Defined.




(** ** views.py and admin.py: writing the status *)

(** X18. [update_booking_status] writes only for staff, on a POST, for an
    existing booking and a status key of the enumeration, and what it
    writes is that booking with the new status; an anonymous or non-staff
    user, another method, an unknown booking or an unknown key leave the
    database as it was. *)
Theorem update_booking_status_writes_only_if (db : DB) (user : option User)
    (is_post : bool) (booking_id : Z) (new_status : option string) :
  snd (Views.update_booking_status db user is_post booking_id new_status)
  <> db ->
  exists u b k s,
    user = Some u /\ is_staff u = true
    /\ is_post = true
    /\ get_booking db booking_id = Some b
    /\ new_status = Some k /\ k = Booking.key s
    /\ snd (Views.update_booking_status db user is_post booking_id
              new_status)
       = save_booking (Booking.set_status s b) db.
Proof.
  unfold Views.update_booking_status, Views.staff_required.
  destruct user as [u|]; simpl; [|congruence].
  destruct (is_staff u) eqn:Hstaff; simpl; [|congruence].
  destruct is_post; simpl; [|congruence].
  destruct (get_booking db booking_id) as [b|] eqn:Hb; simpl; [|congruence].
  destruct new_status as [k|]; simpl; [|congruence].
  destruct (Booking.of_key k) as [s|] eqn:Hk; simpl; [|congruence].
  intros _. exists u, b, k, s. repeat split; try assumption.
  unfold Booking.of_key, Booking.STATUS_CHOICES in Hk.
  cbn [find fst Booking.key] in Hk.
  repeat match type of Hk with
         | context [String.eqb ?x k] =>
             let E := fresh "E" in
             destruct (String.eqb x k) eqn:E;
             [apply String.eqb_eq in E; cbn [option_map fst] in Hk;
              inversion Hk; subst; reflexivity|]
         end.
  cbn [option_map] in Hk. discriminate.
Qed.

Lemma update_booking_status_writes_only_if_witness :
  exists u b k s,
    Some clerk = Some u /\ is_staff u = true
    /\ true = true
    /\ get_booking (hotel_with [stay_tomorrow Booking.Confirmed]) 1 = Some b
    /\ Some "checked_in" = Some k /\ k = Booking.key s
    /\ snd (Views.update_booking_status
              (hotel_with [stay_tomorrow Booking.Confirmed]) (Some clerk)
              true 1 (Some "checked_in"))
       = save_booking (Booking.set_status s b)
           (hotel_with [stay_tomorrow Booking.Confirmed]).
Proof.
  apply (update_booking_status_writes_only_if
           (hotel_with [stay_tomorrow Booking.Confirmed]) (Some clerk) true 1
           (Some "checked_in")).
  discriminate.
Defined.

Lemma set_status_set_status (s1 s2 : Booking.Status) (b : Booking.t) :
  Booking.set_status s2 (Booking.set_status s1 b) = Booking.set_status s2 b.
Proof. reflexivity. Qed.

Lemma apply_op_keeps_row (op : LifecycleOp) (db : DB) (k : Z)
    (b : Booking.t) :
  get_booking db k = Some b ->
  exists s, get_booking (apply_op op db) k = Some (Booking.set_status s b).
Proof.
  intros Hb.
  assert (exists s, get_booking db k = Some (Booking.set_status s b)) as Hsame.
  { exists (Booking.status b). now rewrite set_status_same. }
  assert (forall b0 s0,
             get_booking db (Booking.pk b0) = Some b0 ->
             exists s,
               get_booking (save_booking (Booking.set_status s0 b0) db) k
               = Some (Booking.set_status s b)) as Hsave.
  { intros b0 s0 Hb0. rewrite get_booking_save_any, Hb. simpl.
    destruct (Booking.pk b =? Booking.pk b0) eqn:E.
    - apply Z.eqb_eq in E. apply get_booking_pk in Hb as Hk.
      rewrite <- E, Hk, Hb in Hb0. inversion Hb0; subst b0.
      now exists s0.
    - exists (Booking.status b). now rewrite set_status_same. }
  destruct op as [user booking_id post|selected|selected
                 |user is_post booking_id new_status]; cbn [apply_op].
  - destruct (create_payment_cases db user booking_id post)
      as [E|(u & b0 & m & a & _ & Hb0 & _ & _ & _ & E)]; rewrite E;
      [exact Hsame|].
    cbv zeta.
    destruct (Booking.status_eqb (Booking.status b0) Booking.Pending);
      [|exact Hsame].
    rewrite <- (get_booking_pk _ _ _ Hb0) in Hb0.
    destruct (Hsave b0 Booking.Confirmed Hb0) as [s Hs]. exists s.
    rewrite <- Hs. unfold get_booking, save_booking. reflexivity.
  - unfold BookingAdmin.confirm_booking.
    rewrite get_booking_update_status, Hb. simpl.
    destruct (_ && _); [eexists; reflexivity|].
    exists (Booking.status b). now rewrite set_status_same.
  - unfold BookingAdmin.cancel_booking.
    rewrite get_booking_update_status, Hb. simpl.
    destruct (_ && _); [eexists; reflexivity|].
    exists (Booking.status b). now rewrite set_status_same.
  - unfold Views.update_booking_status.
    destruct (negb (Views.staff_required user)); [exact Hsame|].
    destruct (negb is_post); [exact Hsame|].
    destruct (get_booking db booking_id) as [b0|] eqn:Hb0; [|exact Hsame].
    destruct (option_map Booking.of_key new_status) as [[s0|]|];
      try exact Hsame.
    simpl. rewrite <- (get_booking_pk _ _ _ Hb0) in Hb0.
    exact (Hsave b0 s0 Hb0).
Qed.

(** X19. No operation that writes the status deletes a booking or changes
    anything else of it: through any sequence of payment recordings, admin
    actions and staff status updates, a booking keeps its primary key,
    owner, room, dates, guest count and total price. *)
Theorem status_writers_keep_booking (ops : list LifecycleOp) (db : DB)
    (k : Z) (b : Booking.t) :
  get_booking db k = Some b ->
  exists s,
    get_booking (run_ops ops db) k = Some (Booking.set_status s b).
Proof.
  revert db b. induction ops as [|op tl IH]; intros db b Hb; simpl.
  - exists (Booking.status b). now rewrite set_status_same.
  - destruct (apply_op_keeps_row op db k b Hb) as [s1 H1].
    destruct (IH _ _ H1) as [s2 H2]. exists s2.
    now rewrite H2, set_status_set_status.
Qed.

Lemma status_writers_keep_booking_witness :
  exists s,
    get_booking
      (run_ops [SetStatus (Some clerk) true 1 (Some "checked_in");
                AdminCancel [1];
                SetStatus (Some clerk) true 1 (Some "checked_out")]
         (hotel_with [stay_tomorrow Booking.Confirmed])) 1
    = Some (Booking.set_status s (stay_tomorrow Booking.Confirmed)).
Proof.
  apply (status_writers_keep_booking
           [SetStatus (Some clerk) true 1 (Some "checked_in");
            AdminCancel [1];
            SetStatus (Some clerk) true 1 (Some "checked_out")]
           (hotel_with [stay_tomorrow Booking.Confirmed]) 1
           (stay_tomorrow Booking.Confirmed)).
  reflexivity.
Defined.

(** X20. The admin actions are idempotent: run a second time on the same
    selection, [confirm_booking] and [cancel_booking] report 0 updated
    rows and change nothing. *)
Theorem admin_actions_idempotent (selected : list Z) (db : DB) :
  BookingAdmin.confirm_booking selected
    (snd (BookingAdmin.confirm_booking selected db))
  = (0, snd (BookingAdmin.confirm_booking selected db))
  /\ BookingAdmin.cancel_booking selected
       (snd (BookingAdmin.cancel_booking selected db))
     = (0, snd (BookingAdmin.cancel_booking selected db)).
Proof.
  assert (forall from to,
             Booking.status_in to from = false ->
             BookingAdmin.update_status from to selected
               (snd (BookingAdmin.update_status from to selected db))
             = (0, snd (BookingAdmin.update_status from to selected db)))
    as H.
  { intros from to Hto.
    set (hit := fun b : Booking.t =>
                  existsb (Z.eqb (Booking.pk b)) selected
                  && Booking.status_in (Booking.status b) from).
    set (f := fun b : Booking.t =>
                if hit b then Booking.set_status to b else b).
    assert (forall b, hit (f b) = false) as Hhit.
    { intros b. unfold f. destruct (hit b) eqn:E; [|exact E].
      unfold hit. simpl. rewrite Hto. apply andb_false_r. }
    assert (forall l, filter hit (map f l) = []) as Hfilter.
    { induction l as [|b tl IH]; simpl; [reflexivity|].
      now rewrite Hhit. }
    assert (forall l, map f (map f l) = map f l) as Hmap.
    { induction l as [|b tl IH]; simpl; [reflexivity|].
      rewrite IH. f_equal. unfold f at 1. now rewrite Hhit. }
    unfold BookingAdmin.update_status. cbn [snd bookings with_bookings].
    fold hit. fold f. rewrite Hfilter, Hmap. reflexivity. }
  split; apply H; reflexivity.
Qed.

(** ** views.py: availability *)

(** X21. Availability is monotone: a room found for a stay and a capacity
    is also found for every stay inside it and for every smaller
    capacity. *)
Theorem availability_monotone (db : DB) (t cap cap' : Z)
    (ci co ci' co' : date) (r : Room.t) :
  cap' <= cap ->
  ci <= ci' ->
  co' <= co ->
  In r (Views.available_rooms db (Parsed t) cap ci co) ->
  In r (Views.available_rooms db (Parsed t) cap' ci' co').
Proof.
  intros Hcap Hci Hco. rewrite !available_rooms_iff.
  intros (Hin & Ha & Hs & Ht & (T & HT & Hc) & Hfree).
  repeat split; try assumption.
  - exists T. split; [exact HT | lia].
  - intros b Hb (Hroom & Hst & Hlt & Hgt).
    apply (Hfree b Hb). repeat split; try assumption; lia.
Qed.

Lemma availability_monotone_witness :
  In room_101 (Views.available_rooms hotel (Parsed 1) 1 739039 739040).
Proof.
  apply (availability_monotone hotel 1 2 1 739038 739041 739039 739040
           room_101).
  - lia.
  - lia.
  - lia.
  - simpl. auto.
Defined.

(** X22. What the availability check reports can be booked: for a room of
    its result set, a logged-in user's valid form for the same stay with
    no more guests than the queried capacity passes every check of
    [create_booking] and is committed. *)
Theorem available_room_is_bookable (today : date) (db : DB) (u : User)
    (t cap : Z) (ci co n : Z) (r : Room.t) :
  In r (Views.available_rooms db (Parsed t) cap ci co) ->
  get_active_room db (Room.id r) = Some r ->
  BookingForm.is_valid today (BookingForm.mk (Some ci) (Some co) (Some n))
  = true ->
  n <= cap ->
  exists b,
    Views.create_booking today db (Some u) (Room.id r)
      (Some (BookingForm.mk (Some ci) (Some co) (Some n)))
    = (Redirect "booking_confirm"
         (Some "Booking created! Proceed to payment."),
       with_bookings db (bookings db ++ [b]))
    /\ Booking.room b = Room.id r
    /\ Booking.check_in b = ci
    /\ Booking.check_out b = co.
Proof.
  intros Hin Hroom Hv Hn. apply available_rooms_iff in Hin.
  destruct Hin as (_ & _ & _ & _ & (T & HT & Hc) & Hfree).
  apply overlap_false_iff in Hfree.
  eexists. unfold Views.create_booking.
  rewrite (create_booking_check_passes today db u (Room.id r) r T ci co n);
    try assumption; [|lia].
  unfold Views.create_booking_insert. simpl. repeat split.
Qed.

Lemma available_room_is_bookable_witness :
  exists b,
    Views.create_booking 739007 hotel (Some guest) (Room.id room_101)
      (Some (BookingForm.mk (Some 739038) (Some 739041) (Some 2)))
    = (Redirect "booking_confirm"
         (Some "Booking created! Proceed to payment."),
       with_bookings hotel (bookings hotel ++ [b]))
    /\ Booking.room b = Room.id room_101
    /\ Booking.check_in b = 739038
    /\ Booking.check_out b = 739041.
Proof.
  apply (available_room_is_bookable 739007 hotel guest 1 2 739038 739041 2
           room_101).
  - simpl. auto.
  - reflexivity.
  - reflexivity.
  - lia.
Defined.

(** X23. [check_availability] answers with status 200 exactly when the
    request is a POST whose dates convert, whose capacity and room type
    are missing or convert to integers within the database's range, with
    [check_in < check_out] and check-in not in the past; every other
    request gets status 400.  In a 200 answer the count is between 0 and
    the number of rooms, [available] says whether it is positive, and
    [nights] is at least 1. *)
Theorem check_availability_answers (today : date) (db : DB)
    (post : option Views.AvailabilityPost) :
  let in_range (f : PostField Z) :=
    f = Absent \/ exists n, f = Parsed n /\ fits_int64 n = true in
  let well_formed :=
    exists q ci co,
      post = Some q
      /\ Views.q_check_in q = Parsed ci
      /\ Views.q_check_out q = Parsed co
      /\ in_range (Views.q_capacity q)
      /\ in_range (Views.q_room_type_id q)
      /\ ci < co /\ today <= ci in
  (well_formed ->
   exists count nights,
     Views.check_availability today db post
     = JsonResponse (JsonAvailability (count >? 0) count nights) 200
     /\ 0 <= count <= Z.of_nat (List.length (rooms db))
     /\ 1 <= nights)
  /\ (~ well_formed ->
      Views.check_availability today db post
      = JsonResponse JsonException 400
      \/ exists msg,
          Views.check_availability today db post
          = JsonResponse (JsonError msg) 400).
Proof.
  intros in_range well_formed. subst well_formed in_range. cbv beta.
  split.
  - intros (q & ci & co & -> & Hci & Hco & Hcap & Htype & Hlt & Htoday).
    unfold Views.check_availability. rewrite Hci, Hco.
    assert (forall t c,
               0 <= Z.of_nat (List.length
                                (Views.available_rooms db t c ci co))
               <= Z.of_nat (List.length (rooms db))) as Hcount.
    { intros t c. split; [lia|]. apply Nat2Z.inj_le.
      unfold Views.available_rooms. apply filter_length_le. }
    assert (fits_int64 1 = true) as H1 by reflexivity.
    destruct Hcap as [Hc|(n & Hc & Hn)]; rewrite Hc;
      (destruct (ci >=? co) eqn:E1; [apply Z.geb_le in E1; lia|]);
      (destruct (ci <? today) eqn:E2; [apply Z.ltb_lt in E2; lia|]);
      (destruct Htype as [Ht|(t & Ht & Hft)]; rewrite Ht);
      rewrite ?H1, ?Hn, ?Hft; cbn [andb];
      eexists; eexists; (split; [reflexivity|]);
      (split; [apply Hcount | lia]).
  - intros Hnot. unfold Views.check_availability.
    destruct post as [q|]; [|right; eexists; reflexivity].
    destruct (match Views.q_capacity q with
              | Absent => Some 1
              | Malformed => None
              | Parsed n => Some n
              end) as [capacity|] eqn:Hc; [|now left].
    destruct (Views.q_check_in q) as [| |ci] eqn:Hci; try now left.
    destruct (Views.q_check_out q) as [| |co] eqn:Hco; try now left.
    destruct (ci >=? co) eqn:E1; [right; eexists; reflexivity|].
    destruct (ci <? today) eqn:E2; [right; eexists; reflexivity|].
    rewrite Z.geb_leb in E1. apply Z.leb_gt in E1. apply Z.ltb_ge in E2.
    assert (forall f,
               f <> Malformed ->
               match f with
               | Absent => true
               | Malformed => true
               | Parsed n => fits_int64 n
               end = true ->
               f = Absent \/ exists n, f = Parsed n /\ fits_int64 n = true)
      as Hrange.
    { intros [| |n] Hm Hf; [now left | contradiction|].
      right. exists n. auto. }
    destruct (Views.q_room_type_id q) as [| |t] eqn:Ht; try now left.
    + destruct (fits_int64 capacity) eqn:Hf; [|now left].
      exfalso. apply Hnot. exists q, ci, co. rewrite Ht.
      repeat split; try assumption; [|now left].
      apply Hrange.
      * intros Hm. rewrite Hm in Hc. discriminate.
      * destruct (Views.q_capacity q) as [| |n]; try reflexivity.
        inversion Hc. now subst.
    + destruct (fits_int64 capacity && fits_int64 t) eqn:Hf; [|now left].
      apply andb_true_iff in Hf. destruct Hf as [Hf1 Hf2].
      exfalso. apply Hnot. exists q, ci, co. rewrite Ht.
      repeat split; try assumption; [|right; exists t; auto].
      apply Hrange.
      * intros Hm. rewrite Hm in Hc. discriminate.
      * destruct (Views.q_capacity q) as [| |n]; try reflexivity.
        inversion Hc. now subst.
Qed.

Lemma check_availability_answers_witness :
  exists count nights,
    Views.check_availability 739007 hotel
      (Some (Views.mkAvailabilityPost (Parsed 739038) (Parsed 739041)
               (Parsed 1) Absent))
    = JsonResponse (JsonAvailability (count >? 0) count nights) 200
    /\ 0 <= count <= Z.of_nat (List.length (rooms hotel))
    /\ 1 <= nights.
Proof.
  apply (check_availability_answers 739007 hotel
           (Some (Views.mkAvailabilityPost (Parsed 739038) (Parsed 739041)
                    (Parsed 1) Absent))).
  eexists. exists 739038, 739041.
  repeat split; try reflexivity; try lia.
  - now left.
  - right. exists 1. split; reflexivity.
Defined.

(** ** views.py: the read-only pages *)

Lemma insert_by_perm {A} (le : A -> A -> bool) (x : A) (l : list A) :
  Permutation (insert_by le x l) (x :: l).
Proof.
  induction l as [|y tl IH]; simpl; [reflexivity|].
  destruct (le x y); [reflexivity|]. rewrite IH. apply perm_swap.
Qed.

Lemma order_by_perm {A} (le : A -> A -> bool) (l : list A) :
  Permutation (order_by le l) l.
Proof.
  induction l as [|x tl IH]; simpl; [constructor|].
  rewrite insert_by_perm. now constructor.
Qed.

Lemma order_by_In {A} (le : A -> A -> bool) (l : list A) (x : A) :
  In x (order_by le l) <-> In x l.
Proof.
  split; apply Permutation_in;
    [apply order_by_perm | symmetry; apply order_by_perm].
Qed.

Lemma order_by_check_in_sorted (l : list Booking.t) :
  StronglySorted (fun a b => Booking.check_in b <= Booking.check_in a)
    (order_by Pages.by_check_in_desc l).
Proof.
  induction l as [|x tl IH]; simpl; [constructor|].
  revert IH. generalize (order_by Pages.by_check_in_desc tl). clear tl.
  induction l as [|y tl IH]; simpl; intros Hs.
  - constructor; constructor.
  - inversion Hs as [|? ? Htl Hy]; subst.
    unfold Pages.by_check_in_desc at 1.
    destruct (Booking.check_in y <=? Booking.check_in x) eqn:E.
    + apply Z.leb_le in E. constructor; [exact Hs|].
      constructor; [exact E|].
      rewrite Forall_forall in *. intros z Hz. specialize (Hy z Hz). lia.
    + apply Z.leb_gt in E. constructor; [now apply IH|].
      rewrite Forall_forall in *. intros z Hz.
      apply (Permutation_in _ (insert_by_perm _ x tl)) in Hz.
      destruct Hz as [<-|Hz]; [lia | now apply Hy].
Qed.

Lemma same_user_iff (b : Booking.t) (u : User) :
  Views.same_user (Booking.user b) u = true
  <-> Booking.user b = Some (user_id u).
Proof.
  unfold Views.same_user.
  destruct (Booking.user b) as [o|]; [|split; discriminate].
  rewrite Z.eqb_eq. split; congruence.
Qed.

(** X24. [booking_confirm] turns away only a logged-in user who neither
    owns the booking nor is staff; the owner, staff and also an anonymous
    visitor are shown the booking with its number of nights. *)
Theorem booking_confirm_access (db : DB) (user : option User) (k : Z)
    (b : Booking.t) :
  get_booking db k = Some b ->
  (Pages.booking_confirm db user k = Sent "home" (Some "Access denied.")
   <-> exists u, user = Some u
                 /\ Booking.user b <> Some (user_id u)
                 /\ is_staff u = false)
  /\ (Pages.booking_confirm db user k
      = Shown "hotel_app/booking_confirm.html"
          (b, Booking.check_out b - Booking.check_in b)
      <-> user = None
          \/ exists u, user = Some u
                       /\ (Booking.user b = Some (user_id u)
                           \/ is_staff u = true)).
Proof.
  intros Hb. unfold Pages.booking_confirm. rewrite Hb.
  destruct user as [u|].
  - destruct (Views.same_user (Booking.user b) u) eqn:Es; simpl.
    + apply same_user_iff in Es. split; split; try discriminate.
      * intros (u' & Hu & Hn & _). inversion Hu; subst. contradiction.
      * intros _. right. exists u. auto.
      * reflexivity.
    + assert (Booking.user b <> Some (user_id u)) as Hn.
      { intros H. apply same_user_iff in H. congruence. }
      destruct (is_staff u) eqn:Est; simpl; split; split;
        try discriminate; try reflexivity.
      * intros (u' & Hu & _ & Hs). inversion Hu; subst. congruence.
      * intros _. right. exists u. auto.
      * intros _. exists u. auto.
      * intros [H|(u' & Hu & [H|H])]; [discriminate| |];
          inversion Hu; subst; congruence.
  - simpl. split; split; try discriminate; try reflexivity.
    + intros (u & Hu & _). discriminate.
    + intros _. now left.
Qed.

Lemma booking_confirm_access_witness :
  (Pages.booking_confirm (hotel_with [booking_a]) None 1
   = Sent "home" (Some "Access denied.")
   <-> exists u, @None User = Some u
                 /\ Booking.user booking_a <> Some (user_id u)
                 /\ is_staff u = false)
  /\ (Pages.booking_confirm (hotel_with [booking_a]) None 1
      = Shown "hotel_app/booking_confirm.html"
          (booking_a, Booking.check_out booking_a - Booking.check_in booking_a)
      <-> @None User = None
          \/ exists u, @None User = Some u
                       /\ (Booking.user booking_a = Some (user_id u)
                           \/ is_staff u = true)).
Proof.
  apply (booking_confirm_access (hotel_with [booking_a]) None 1 booking_a).
  reflexivity.
Defined.

(** X25. [user_bookings] lists exactly the bookings owned by the logged-in
    user, each as often as it is on record, latest check-in first. *)
Theorem user_bookings_lists_own (db : DB) (u : User) :
  exists l,
    Pages.user_bookings db (Some u) = Shown "hotel_app/user_bookings.html" l
    /\ (forall b, In b l
                  <-> In b (bookings db)
                      /\ Booking.user b = Some (user_id u))
    /\ Permutation l
         (filter (fun b => Views.same_user (Booking.user b) u) (bookings db))
    /\ StronglySorted
         (fun a b => Booking.check_in b <= Booking.check_in a) l.
Proof.
  eexists. split; [reflexivity|]. split; [|split].
  - intros b. rewrite order_by_In, filter_In, same_user_iff. reflexivity.
  - apply order_by_perm.
  - apply order_by_check_in_sorted.
Qed.

(** X26. A booking shows up in its creator's list and in nobody else's:
    after [create_booking] has inserted a booking for a user,
    [user_bookings] of that user contains it, and [user_bookings] of a
    user with another id does not. *)
Theorem created_booking_is_listed (today : date) (db : DB) (u : User)
    (room_id : Z) (post : option BookingForm.data) (b : Booking.t) :
  bookings (snd (Views.create_booking today db (Some u) room_id post))
  = (bookings db ++ [b])%list ->
  forall v,
    exists l,
      Pages.user_bookings
        (snd (Views.create_booking today db (Some u) room_id post)) (Some v)
      = Shown "hotel_app/user_bookings.html" l
      /\ (user_id v = user_id u -> In b l)
      /\ (user_id v <> user_id u -> ~ In b l).
Proof.
  intros H v.
  assert (Booking.user b = Some (user_id u)) as Hu.
  { revert H. unfold Views.create_booking.
    destruct (Views.create_booking_check today db (Some u) room_id post)
      as [response|c] eqn:Hc; simpl snd; intros H.
    - symmetry in H. exfalso. exact (app_one_neq _ _ H).
    - apply create_booking_insert_row in H. subst b. simpl.
      apply create_booking_check_inr_full in Hc.
      destruct Hc as (Hc & _). inversion Hc. reflexivity. }
  eexists. split; [reflexivity|]. split.
  - intros Hv. rewrite order_by_In, filter_In, same_user_iff, H, Hu, Hv.
    split; [|reflexivity]. apply in_or_app. right. now left.
  - intros Hv Hin. rewrite order_by_In, filter_In, same_user_iff, Hu in Hin.
    destruct Hin as [_ Hin]. inversion Hin. congruence.
Qed.

Lemma created_booking_is_listed_witness :
  exists l,
    Pages.user_bookings
      (snd (Views.create_booking 739007 (hotel_with [booking_a])
              (Some other_guest) 1
              (Some (BookingForm.mk (Some 739039) (Some 739040) (Some 1)))))
      (Some guest)
    = Shown "hotel_app/user_bookings.html" l
    /\ (user_id guest = user_id other_guest -> In booking_b l)
    /\ (user_id guest <> user_id other_guest -> ~ In booking_b l).
Proof.
  apply (created_booking_is_listed 739007 (hotel_with [booking_a])
           other_guest 1
           (Some (BookingForm.mk (Some 739039) (Some 739040) (Some 1)))
           booking_b).
  reflexivity.
Defined.

(** X27. [manage_bookings] is for staff only, and its status filter goes
    by the stored key: without a status, or with an empty one, every
    booking is listed; with a status string, exactly the bookings whose
    status has that key, so a string that is no key lists nothing.  The
    list is ordered latest check-in first. *)
Theorem manage_bookings_filter (db : DB) (user : option User)
    (status : option string) :
  (Views.staff_required user = false ->
   Pages.manage_bookings db user status
   = Sent "home" (Some "Staff access required."))
  /\ (Views.staff_required user = true ->
      exists l,
        Pages.manage_bookings db user status
        = Shown "hotel_app/manage_bookings.html" (l, status)
        /\ (forall b,
               In b l
               <-> In b (bookings db)
                   /\ (status = None \/ status = Some ""
                       \/ status = Some (Booking.key (Booking.status b))))
        /\ StronglySorted
             (fun a b => Booking.check_in b <= Booking.check_in a) l).
Proof.
  unfold Pages.manage_bookings. split; intros Hs; rewrite Hs; simpl;
    [reflexivity|].
  eexists. split; [reflexivity|].
  split; [|apply order_by_check_in_sorted].
  intros b. rewrite order_by_In.
  destruct status as [[|c s]|].
  - intuition.
  - rewrite filter_In, String.eqb_eq. split.
    + intros [Hin Hk]. split; [exact Hin|]. right. right. now rewrite Hk.
    + intros [Hin [H|[H|H]]]; try discriminate.
      inversion H. auto.
  - intuition.
Qed.

Lemma manage_bookings_filter_witness :
  exists l,
    Pages.manage_bookings (hotel_with [booking_a; booking_b]) (Some clerk)
      (Some "paid")
    = Shown "hotel_app/manage_bookings.html" (l, Some "paid")
    /\ (forall b,
           In b l
           <-> In b (bookings (hotel_with [booking_a; booking_b]))
               /\ (Some "paid" = None \/ Some "paid" = Some ""
                   \/ Some "paid" = Some (Booking.key (Booking.status b))))
    /\ StronglySorted
         (fun a b => Booking.check_in b <= Booking.check_in a) l.
Proof.
  apply (manage_bookings_filter (hotel_with [booking_a; booking_b])
           (Some clerk) (Some "paid")).
  reflexivity.
Defined.

Lemma room_status_key_inj (a b : Room.Status) :
  String.eqb (Pages.room_status_key a) (Pages.room_status_key b) = true
  <-> a = b.
Proof. destruct a, b; simpl; split; (reflexivity || discriminate). Qed.

(** X28. [room_list] lists exactly the active rooms that pass the filters
    given: the room type when one is posted, the room-type capacity when
    the posted capacity is a number (a capacity that is not a number is
    ignored), and the room status, which defaults to [available] and is
    not filtered on when posted empty.  A room type that is not a number
    fails the request. *)
Theorem room_list_filters (collate : string -> string -> bool) (db : DB)
    (room_type_id capacity : PostField Z) (status : option string) :
  (room_type_id = Malformed ->
   Pages.room_list collate db room_type_id capacity status = Failed)
  /\ (room_type_id <> Malformed ->
      exists l,
        Pages.room_list collate db room_type_id capacity status
        = Shown "hotel_app/room_list.html"
            (l, order_by (Pages.by_name collate) (room_types db))
        /\ forall r,
            In r l
            <-> In r (rooms db)
                /\ Room.is_active r = true
                /\ match room_type_id with
                   | Parsed t => Room.room_type_id r = t
                   | _ => True
                   end
                /\ match capacity with
                   | Parsed n => Views.capacity_gte db n r = true
                   | _ => True
                   end
                /\ match status with
                   | None => Room.status r = Room.Available
                   | Some "" => True
                   | Some s => Pages.room_status_key (Room.status r) = s
                   end).
Proof.
  split; [intros ->; reflexivity|]. intros Hrt.
  unfold Pages.room_list.
  destruct room_type_id as [| |t]; [|contradiction|];
    (eexists; split; [reflexivity|]); intros r; rewrite order_by_In;
    destruct capacity as [| |n]; destruct status as [[|c s]|];
    rewrite ?filter_In, ?Z.eqb_eq, ?String.eqb_eq;
    change "available" with (Pages.room_status_key Room.Available);
    rewrite <- ?String.eqb_eq, ?room_status_key_inj, ?String.eqb_eq;
    tauto.
Qed.

(** Rooms ordered by the byte order of their numbers: double rooms for
    two, in any status, with a capacity that is not a number. *)
Lemma room_list_filters_witness :
  exists l,
    Pages.room_list String.leb hotel (Parsed 1) Malformed (Some "")
    = Shown "hotel_app/room_list.html"
        (l, order_by (Pages.by_name String.leb) (room_types hotel))
    /\ forall r,
        In r l
        <-> In r (rooms hotel)
            /\ Room.is_active r = true
            /\ Room.room_type_id r = 1
            /\ True
            /\ True.
Proof.
  apply (room_list_filters String.leb hotel (Parsed 1) Malformed (Some "")).
  discriminate.
Defined.

Lemma firstn_incl {A} (n : nat) (l : list A) (x : A) :
  In x (firstn n l) -> In x l.
Proof.
  intros H. rewrite <- (firstn_skipn n l). apply in_or_app. now left.
Qed.

(** X29. [home] features at most six rooms, each of them an active room
    whose status is [available]; when there are no more than six such
    rooms it features them all; and every featured room is on the default
    room list. *)
Theorem home_features_available_rooms (collate : string -> string -> bool)
    (db : DB) :
  let featured := fst (Pages.home collate db) in
  let eligible r :=
    In r (rooms db) /\ Room.is_active r = true
    /\ Room.status r = Room.Available in
  (List.length featured <= 6)%nat
  /\ (forall r, In r featured -> eligible r)
  /\ ((List.length
         (filter (fun r => Room.is_active r
                           && Room.status_eqb (Room.status r) Room.Available)
            (rooms db)) <= 6)%nat ->
      forall r, eligible r -> In r featured)
  /\ exists l types,
      Pages.room_list collate db Absent Absent None
      = Shown "hotel_app/room_list.html" (l, types)
      /\ forall r, In r featured -> In r l.
Proof.
  intros featured eligible. subst featured eligible. unfold Pages.home.
  cbn [fst].
  assert (forall r,
             In r (filter
                     (fun r => Room.is_active r
                               && Room.status_eqb (Room.status r)
                                    Room.Available) (rooms db))
             <-> In r (rooms db) /\ Room.is_active r = true
                 /\ Room.status r = Room.Available) as Hel.
  { intros r. rewrite filter_In, andb_true_iff, room_status_eqb_eq. tauto. }
  split; [apply firstn_le_length|].
  split; [|split].
  - intros r Hr. apply firstn_incl in Hr. rewrite order_by_In in Hr.
    now apply Hel.
  - intros Hlen r Hr. rewrite firstn_all2.
    + rewrite order_by_In. now apply Hel.
    + now rewrite (Permutation_length (order_by_perm _ _)).
  - eexists. eexists. split; [reflexivity|].
    intros r Hr. apply firstn_incl in Hr. rewrite order_by_In in Hr.
    apply Hel in Hr. destruct Hr as (Hin & Ha & Hs).
    rewrite order_by_In, !filter_In. repeat split; try assumption.
    rewrite Hs. reflexivity.
Qed.

(** X30. The price shown is the price charged: for an active room,
    [room_detail] shows a current price, which is the price of a rate of
    the room type that [RoomRate.is_active] today, or the base price when
    no rate of the type is active; a booking committed on the same day is
    priced at its number of nights times that displayed price. *)
Theorem displayed_price_is_charged (today : date) (db : DB) (u : User)
    (room_id : Z) (room : Room.t) (T : RoomType.t) (ci co n : Z) :
  get_active_room db room_id = Some room ->
  get_room_type db (Room.room_type_id room) = Some T ->
  BookingForm.is_valid today (BookingForm.mk (Some ci) (Some co) (Some n))
  = true ->
  n <= RoomType.capacity T ->
  Views.overlap db room ci co = false ->
  exists p b,
    Views.room_detail today db room_id = Some p
    /\ ((exists r, In r (rates db)
                   /\ RoomRate.room_type_id r = RoomType.id T
                   /\ RoomRate.is_active today r = true
                   /\ p = RoomRate.price r)
        \/ ((forall r, In r (rates db) ->
                       RoomRate.room_type_id r = RoomType.id T ->
                       RoomRate.is_active today r = false)
            /\ p = RoomType.base_price T))
    /\ bookings (snd (Views.create_booking today db (Some u) room_id
                        (Some (BookingForm.mk (Some ci) (Some co) (Some n)))))
       = (bookings db ++ [b])%list
    /\ Booking.total_price b = Booking.get_num_nights b * p.
Proof.
  intros Hroom HT Hv Hcap Ho.
  exists (Views.current_price db T today). eexists.
  split; [unfold Views.room_detail; now rewrite Hroom, HT|].
  split.
  - unfold Views.current_price.
    destruct (Views.seasonal_rate db T today) as [r|] eqn:E.
    + left. exists r. apply seasonal_rate_some in E.
      destruct E as [(Hin & Hty & Hd) _]. repeat split; try assumption.
      unfold RoomRate.is_active. apply andb_true_iff.
      split; apply Z.leb_le; lia.
    + right. split; [|reflexivity]. intros r Hin Hty.
      apply not_true_is_false. intros Ha.
      apply (seasonal_rate_none _ _ _ E r). unfold rate_applies.
      unfold RoomRate.is_active in Ha. apply andb_true_iff in Ha.
      destruct Ha as [H1 H2]. apply Z.leb_le in H1. apply Z.leb_le in H2.
      auto.
  - unfold Views.create_booking.
    rewrite (create_booking_check_passes today db u room_id room T ci co n);
      try assumption.
    unfold Views.create_booking_insert. simpl. split; reflexivity.
Qed.

Lemma displayed_price_is_charged_witness :
  exists p b,
    Views.room_detail 739241 hotel 3 = Some p
    /\ ((exists r, In r (rates hotel)
                   /\ RoomRate.room_type_id r = RoomType.id type_suite
                   /\ RoomRate.is_active 739241 r = true
                   /\ p = RoomRate.price r)
        \/ ((forall r, In r (rates hotel) ->
                       RoomRate.room_type_id r = RoomType.id type_suite ->
                       RoomRate.is_active 739241 r = false)
            /\ p = RoomType.base_price type_suite))
    /\ bookings (snd (Views.create_booking 739241 hotel (Some guest) 3
                        (Some (BookingForm.mk (Some 739242) (Some 739244)
                                 (Some 2)))))
       = (bookings hotel ++ [b])%list
    /\ Booking.total_price b = Booking.get_num_nights b * p.
Proof.
  apply (displayed_price_is_charged 739241 hotel guest 3 room_201 type_suite
           739242 739244 2).
  - reflexivity.
  - reflexivity.
  - reflexivity.
  - simpl. lia.
  - reflexivity.
Defined.
